(** * pdf-manager front end: request/response contract, session store, file reordering

    A shallow embedding of three pieces of the TypeScript front end:

    - [PdfService]: [frontend/src/services/pdfService.ts], the client side of the
      file-operation contract (validation before the request, one POST, content-type
      sniffing of the answer, the [catch] handler);
    - [AuthService]: the session entry kept in [localStorage] ([setSession],
      [getSession], [clearSession], [login], [logout]);
    - [Dashboard]: [moveFile], the reordering of the files selected for a merge.

    Around them: [edit] and [createFormRequest] of the service, the file handlers
    of the Dashboard ([handleRemoveFile], the merge and convert drop zones), the
    file list of [MergePDFDialog], the paging of [PDFViewer], the expanded matches
    of [PlagiarismResults] and the provider of [AuthContext]; and, of the
    backend, the handler of the compress endpoint ([Backend.compress_pdf]), which
    the sources keep in compiled form.

    Promises are awaited in sequence in the source, so an [async] function is modelled
    as a computation that threads the log of requests issued so far and either returns
    a value or throws.  [console.log] and [console.error] calls have no influence on
    results and are left out. *)

From Stdlib Require Import ZArith Ascii String.
From stdpp Require Import base option list gmap strings pretty.

Local Open Scope string_scope.
Local Open Scope Z_scope.

(** ** The JavaScript runtime pieces the code relies on *)

Module Js.

(** [String.prototype.includes]: is [searchString] a substring of [s]? *)
Fixpoint includes (s searchString : string) : bool :=
  if String.prefix searchString s then true
  else match s with
       | EmptyString => false
       | String _ rest => includes rest searchString
       end.

(** [String.prototype.toLowerCase] on one code unit.  Strings are sequences of
    8-bit code units read as Latin-1: A-Z and the accented capitals U+00C0-U+00DE
    (except the multiplication sign U+00D7) move 32 places up, the rest is fixed. *)
Definition lower_unit (c : ascii) : ascii :=
  let n := N_of_ascii c in
  if ((65 <=? n) && (n <=? 90))%N then ascii_of_N (n + 32)
  else if ((192 <=? n) && (n <=? 222) && negb (n =? 215))%N then ascii_of_N (n + 32)
  else c.

Fixpoint toLowerCase (s : string) : string :=
  match s with
  | EmptyString => EmptyString
  | String c rest => String (lower_unit c) (toLowerCase rest)
  end.

(** [Array.prototype.includes] on an array of strings. *)
Definition array_includes (xs : list string) (x : string) : bool :=
  existsb (String.eqb x) xs.

(** [Array.prototype.join]. *)
Fixpoint join (sep : string) (xs : list string) : string :=
  match xs with
  | [] => ""
  | [x] => x
  | x :: rest => x ++ sep ++ join sep rest
  end.

(** [Number.MAX_SAFE_INTEGER] and [Number.isSafeInteger] on an integer. *)
Definition MAX_SAFE_INTEGER : Z := 2 ^ 53 - 1.
Definition isSafeInteger (n : Z) : bool := Z.abs n <=? MAX_SAFE_INTEGER.

(** [String(n)] for a safe integer [n]: its decimal digits, with a minus sign
    when it is negative.  Beyond the safe integers JavaScript prints the shortest
    digits that identify the number, padded with zeros, and an exponent from
    10^21 on: such numbers, and the numbers that are not integers, are outside
    this definition. *)
Definition String_of_number (n : Z) : string := pretty n.

(** The values [JSON.parse] produces.  Numbers are kept integral. *)
#[local] Unset Elimination Schemes.
Inductive Json : Type :=
| JNull
| JBool (b : bool)
| JNumber (n : Z)
| JString (s : string)
| JArray (items : list Json)
| JObject (members : list (string * Json)).
#[local] Set Elimination Schemes.

(** A JavaScript value that may be [undefined]. *)
Definition Value := option Json.
Definition undefined : Value := None.

(** ToBoolean. *)
Definition truthy (v : Value) : bool :=
  match v with
  | None | Some JNull => false
  | Some (JBool b) => b
  | Some (JNumber n) => negb (n =? 0)
  | Some (JString s) => negb (String.eqb s "")
  | Some (JArray _) | Some (JObject _) => true
  end.

(** ToString, as [new Error(v)] applies it to its argument. *)
Fixpoint ToString (j : Json) : string :=
  match j with
  | JNull => "null"
  | JBool true => "true"
  | JBool false => "false"
  | JNumber n => String_of_number n
  | JString s => s
  | JArray items =>
      join "," (List.map (fun x => match x with JNull => "" | _ => ToString x end) items)
  | JObject _ => "[object Object]"
  end.


(** Own-property lookup in a parsed object (the parser keeps one member per key). *)
Fixpoint member (key : string) (members : list (string * Json)) : Value :=
  match members with
  | [] => undefined
  | (k, v) :: rest => if String.eqb k key then Some v else member key rest
  end.

(** [String.prototype.endsWith] *)
Definition endsWith (s searchString : string) : bool :=
  let n := String.length s in
  let m := String.length searchString in
  (m <=? n)%nat && String.eqb (substring (n - m) m s) searchString.

(** The character that delimits string literals, as a string. *)
Definition double_quote : string := String (ascii_of_nat 34) "".

(** What a JavaScript statement can throw here: an [Error] built by the code or by
    the runtime ([SyntaxError], [TypeError]), or the error with which the HTTP client
    rejects, which carries the server's response when there was one. *)
Inductive Thrown (Response : Type) : Type :=
| Error (message : string)
| AxiosError (message : string) (response : option Response).
Arguments Error {Response} message.
Arguments AxiosError {Response} message response.

(** How a call completes: it returns a value or throws one. *)
Inductive Completion (E A : Type) : Type :=
| Returned (a : A)
| Threw (e : E).
Arguments Returned {E A} a.
Arguments Threw {E A} e.

(** A function body with side effects on a state of type [S]: the state goes in,
    the completion and the state afterwards come out.  Awaited promises run in
    sequence, so an [async] body has the same shape. *)
Definition Eff (S E A : Type) : Type := S -> Completion E A * S.

Definition ret {S E A} (a : A) : Eff S E A := fun s => (Returned a, s).
Definition throw {S E A} (e : E) : Eff S E A := fun s => (Threw e, s).
Definition bind {S E A B} (m : Eff S E A) (k : A -> Eff S E B) : Eff S E B :=
  fun s =>
    match m s with
    | (Returned a, s') => k a s'
    | (Threw e, s') => (Threw e, s')
    end.
(** [try { body } catch (e) { handler e }] *)
Definition try_catch {S E A} (body : Eff S E A) (handler : E -> Eff S E A) : Eff S E A :=
  fun s =>
    match body s with
    | (Returned a, s') => (Returned a, s')
    | (Threw e, s') => handler e s'
    end.

Declare Scope js_scope.
Notation "x <- m ;; k" := (bind m (fun x => k))
  (at level 100, m at next level, right associativity) : js_scope.
Notation "m ;;; k" := (bind m (fun _ => k))
  (at level 100, right associativity) : js_scope.

End Js.

(** ** pdfService.ts *)

Module PdfService.
Import Js.

(** [CompressionLevel] is a numeric enum: at run time a level is a number. *)
Definition CompressionLevel := Z.
Definition LOW : CompressionLevel := 1.
Definition MEDIUM : CompressionLevel := 2.
Definition HIGH : CompressionLevel := 3.
Definition MAXIMUM : CompressionLevel := 4.

(** A [Blob]: its MIME type and what [text()] resolves to.  A [File] is a blob
    with a name. *)
Record Blob := { blob_type : string; text : string }.
Record File := { name : string; type : string; content : string }.

(** [FormData]: the appended entries, in order, duplicates kept. *)
Inductive FormValue :=
| FormFile (f : File)
| FormString (s : string).

Definition FormData := list (string * FormValue).

Definition append (formData : FormData) (key : string) (value : FormValue) : FormData :=
  (formData ++ [(key, value)])%list.

(** The third argument of [axiosInstance.post].  [transformRequest] is the identity
    in every call and is not recorded. *)
Record Config := { responseType : string; headers : list (string * string) }.

Record Request := { url : string; data : FormData; config : Config }.

(** A response as the client sees it.  Every request here asks for
    [responseType: 'blob'], so the body is a blob whatever the status. *)
Record Response := {
  status : Z;
  response_headers : gmap string string;
  response_data : Blob }.

(** What an operation, or the HTTP client, completes with. *)
Definition Outcome (A : Type) : Type := Completion (Thrown Response) A.

(** What the surrounding runtime supplies: the HTTP client ([./axiosInstance], which
    resolves with a response or rejects), [JSON.parse] (a value, or the message of
    the [SyntaxError]), the message of the [TypeError] raised by reading a property
    of [null], and [JSON.stringify] on a list of edit operations. *)
Record Runtime (EditOperation : Type) := {
  post : Request -> Outcome Response;
  JSON_parse : string -> Json + string;
  null_property_message : string;
  JSON_stringify : list EditOperation -> string }.
Arguments post {EditOperation} _ _.
Arguments JSON_parse {EditOperation} _ _.
Arguments null_property_message {EditOperation} _.
Arguments JSON_stringify {EditOperation} _ _.

(** An [async] method of the service: the state is the log of requests issued so
    far. *)
Definition Async (A : Type) : Type := Eff (list Request) (Thrown Response) A.

Local Open Scope js_scope.

(** Running an operation from an empty log. *)
Definition run {A} (m : Async A) : Outcome A * list Request := m [].
Definition result {A} (m : Async A) : Outcome A := fst (run m).
Definition requests {A} (m : Async A) : list Request := snd (run m).

Section Service.
Context {EditOperation : Type} (rt : Runtime EditOperation).

Definition API_PREFIX : string := "/api/v1".

(** [await axiosInstance.post(url, formData, config)] *)
Definition axiosInstance_post (u : string) (formData : FormData) (c : Config) : Async Response :=
  fun log =>
    let request := {| url := u; data := formData; config := c |} in
    (post rt request, (log ++ [request])%list).

(** [JSON.parse(await blob.text())] *)
Definition parse_blob (b : Blob) : Async Json :=
  match JSON_parse rt (text b) with
  | inl v => ret v
  | inr syntaxError => throw (Error syntaxError)
  end.

(** [errorJson.detail] *)
Definition detail_of (errorJson : Json) : Async Value :=
  match errorJson with
  | JNull => throw (Error (null_property_message rt))
  | JObject members => ret (member "detail" members)
  | _ => ret undefined
  end.

(** [new Error(detail || fallback)] *)
Definition Error_or (detail : Value) (fallback : string) : Thrown Response :=
  match detail with
  | Some j => if truthy detail then Error (ToString j) else Error fallback
  | None => Error fallback
  end.

(** The three statements that read an error body:
    [const errorText = await body.text(); const errorJson = JSON.parse(errorText);
     throw new Error(errorJson.detail || fallback)]. *)
Definition throw_detail (fallback : string) (body : Blob) : Async Blob :=
  errorJson <- parse_blob body ;;
  detail <- detail_of errorJson ;;
  throw (Error_or detail fallback).

(** [contentType && contentType.includes('application/json')] *)
Definition is_json (contentType : option string) : bool :=
  match contentType with
  | Some ct => negb (String.eqb ct "") && includes ct "application/json"
  | None => false
  end.

(** The block after the [await] in [compress], [merge], [preview], [convert] and
    [export]; the five copies differ in the fallback message only. *)
Definition check_response (fallback : string) (response : Response) : Async Blob :=
  let contentType := response_headers response !! "content-type" in
  if is_json contentType then throw_detail fallback (response_data response)
  else ret (response_data response).

(** The [catch (error)] block of the same five functions.  When the error carries
    a response, its data is a blob and the nested [try] parses it; the [throw] of
    that nested [try] is caught by its own [catch (e)].  Otherwise
    [error.response?.data?.detail] is [undefined] and the message of the error is
    used unless it is empty. *)
Definition on_error (fallback : string) (error : Thrown Response) : Async Blob :=
  match error with
  | AxiosError _ (Some response) =>
      try_catch
        (throw_detail fallback (response_data response))
        (fun e => throw (Error fallback))
  | AxiosError message None | Error message =>
      throw (Error (if String.eqb message "" then fallback else message))
  end.

(** The [try]/[catch] statement that each of the five functions writes out: one
    request, the check of its answer, the handler. *)
Definition exchange (fallback u : string) (formData : FormData) (c : Config) : Async Blob :=
  try_catch
    (response <- axiosInstance_post u formData c ;;
     check_response fallback response)
    (on_error fallback).

Definition blob_accept : Config :=
  {| responseType := "blob";
     headers := [("Accept", "application/pdf, application/json")] |}.

Definition compress (file : File) (level : CompressionLevel) : Async Blob :=
  if negb (includes (type file) "pdf") then
    throw (Error "Invalid file type. Please select a PDF file.")
  else
    let formData := append [] "file" (FormFile file) in
    let formData := append formData "compression_level" (FormString (String_of_number level)) in
    try_catch
      (response <- axiosInstance_post (API_PREFIX ++ "/pdf/compress") formData blob_accept ;;
       check_response "Failed to compress PDF" response)
      (on_error "Failed to compress PDF").

Definition merge (files : list File) : Async Blob :=
  if (Z.of_nat (length files) <? 2) then
    throw (Error "At least two PDF files are required for merging")
  else
    let formData := fold_left (fun fd file => append fd "files" (FormFile file)) files [] in
    try_catch
      (response <- axiosInstance_post (API_PREFIX ++ "/pdf/merge") formData blob_accept ;;
       check_response "Failed to merge PDFs" response)
      (on_error "Failed to merge PDFs").

Definition preview (file : File) (operations : list EditOperation) : Async Blob :=
  let formData := append [] "file" (FormFile file) in
  let formData := append formData "operations" (FormString (JSON_stringify rt operations)) in
  try_catch
    (response <- axiosInstance_post (API_PREFIX ++ "/pdf/preview") formData blob_accept ;;
     check_response "Failed to preview PDF" response)
    (on_error "Failed to preview PDF").

Definition convert (file : File) : Async Blob :=
  let formData := append [] "file" (FormFile file) in
  if String.eqb (type file) "application/pdf" then
    throw (Error "File is already a PDF. Please select a different format to convert.")
  else
    try_catch
      (response <- axiosInstance_post (API_PREFIX ++ "/pdf/convert") formData
                     {| responseType := "blob";
                        headers := [("Accept", "application/pdf, application/json");
                                    ("Content-Type", "multipart/form-data")] |} ;;
       check_response "Failed to convert file to PDF" response)
      (on_error "Failed to convert file to PDF").

Definition supportedFormats : list string := ["xlsx"; "txt"; "html"; "png"; "jpg"; "jpeg"].

(** The default value of [export]'s [format] parameter. *)
Definition export_default_format : string := "docx".

Definition export (file : File) (format : string) : Async Blob :=
  if negb (includes (type file) "pdf") then
    throw (Error "Invalid file type. Please select a PDF file.")
  else if negb (array_includes supportedFormats (toLowerCase format)) then
    throw (Error ("Unsupported format: " ++ format ++ ". Supported formats are: "
                    ++ join ", " supportedFormats))
  else
    let formData := append [] "file" (FormFile file) in
    let formData := append formData "format" (FormString (toLowerCase format)) in
    try_catch
      (response <- axiosInstance_post (API_PREFIX ++ "/pdf/export") formData
                     {| responseType := "blob"; headers := [("Accept", "*/*")] |} ;;
       check_response "Failed to export PDF" response)
      (on_error "Failed to export PDF").

(** A call that leaves [format] out: the parameter takes its default. *)
Definition export_without_format (file : File) : Async Blob :=
  export file export_default_format.

(** The argument and the result of [createFormRequest], as far as the requests
    record them: the response type, when one is given, and the headers as an
    object, that is its keys in insertion order with one value each. *)
Record RequestOptions := {
  options_responseType : option string;
  options_headers : list (string * string) }.

(** Assignment to a property of a headers object: an existing key keeps its
    place and takes the new value, a new key goes last. *)
Fixpoint assign (obj : list (string * string)) (key value : string)
  : list (string * string) :=
  match obj with
  | [] => [(key, value)]
  | (k, v) :: rest =>
      if String.eqb k key then (k, value) :: rest else (k, v) :: assign rest key value
  end.

(** [{ ...target, ...source }] on headers objects. *)
Definition spread (target source : list (string * string)) : list (string * string) :=
  fold_left (fun obj kv => assign obj (fst kv) (snd kv)) source target.

(** Reading a property of a headers object. *)
Fixpoint property (obj : list (string * string)) (key : string) : option string :=
  match obj with
  | [] => None
  | (k, v) :: rest => if String.eqb k key then Some v else property rest key
  end.

Definition createFormRequest (config : RequestOptions) : RequestOptions :=
  {| options_responseType := options_responseType config;
     options_headers :=
       spread
         [("Accept",
           match options_responseType config with
           | Some t => if String.eqb t "blob" then "application/pdf" else "application/json"
           | None => "application/json"
           end)]
         (options_headers config) |}.

(** The options as the third argument of [axiosInstance.post]; the HTTP client
    takes the response type [json] when none is given. *)
Definition as_config (options : RequestOptions) : Config :=
  {| responseType := default "json" (options_responseType options);
     headers := options_headers options |}.

(** [edit] neither validates its arguments nor inspects the answer: it returns
    [response.data] and rethrows what it catches. *)
Definition edit (file : File) (operations : list EditOperation) : Async Blob :=
  let formData := append [] "file" (FormFile file) in
  let formData := append formData "operations" (FormString (JSON_stringify rt operations)) in
  try_catch
    (response <- axiosInstance_post (API_PREFIX ++ "/pdf/edit") formData
                   (as_config (createFormRequest
                                 {| options_responseType := Some "blob";
                                    options_headers := [] |})) ;;
     ret (response_data response))
    (fun error => throw error).

End Service.

(** The five operations whose answer is sniffed, with their arguments, and the
    message each falls back to. *)
Inductive Operation (EditOperation : Type) : Type :=
| Compress (file : File) (level : CompressionLevel)
| Merge (files : list File)
| Preview (file : File) (operations : list EditOperation)
| Convert (file : File)
| Export (file : File) (format : string).
Arguments Compress {EditOperation} file level.
Arguments Merge {EditOperation} files.
Arguments Preview {EditOperation} file operations.
Arguments Convert {EditOperation} file.
Arguments Export {EditOperation} file format.

Definition perform {EditOperation} (rt : Runtime EditOperation)
  (op : Operation EditOperation) : Async Blob :=
  match op with
  | Compress file level => compress rt file level
  | Merge files => merge rt files
  | Preview file operations => preview rt file operations
  | Convert file => convert rt file
  | Export file format => export rt file format
  end.

Definition fallback_message {EditOperation} (op : Operation EditOperation) : string :=
  match op with
  | Compress _ _ => "Failed to compress PDF"
  | Merge _ => "Failed to merge PDFs"
  | Preview _ _ => "Failed to preview PDF"
  | Convert _ => "Failed to convert file to PDF"
  | Export _ _ => "Failed to export PDF"
  end.

(** The request an operation sends once its validation has passed. *)
Definition request_of {EditOperation} (rt : Runtime EditOperation)
  (op : Operation EditOperation) : Request :=
  match op with
  | Compress file level =>
      {| url := "/api/v1/pdf/compress";
         data := [("file", FormFile file);
                  ("compression_level", FormString (String_of_number level))];
         config := blob_accept |}
  | Merge files =>
      {| url := "/api/v1/pdf/merge";
         data := List.map (fun file => ("files", FormFile file)) files;
         config := blob_accept |}
  | Preview file operations =>
      {| url := "/api/v1/pdf/preview";
         data := [("file", FormFile file);
                  ("operations", FormString (JSON_stringify rt operations))];
         config := blob_accept |}
  | Convert file =>
      {| url := "/api/v1/pdf/convert";
         data := [("file", FormFile file)];
         config := {| responseType := "blob";
                      headers := [("Accept", "application/pdf, application/json");
                                  ("Content-Type", "multipart/form-data")] |} |}
  | Export file format =>
      {| url := "/api/v1/pdf/export";
         data := [("file", FormFile file); ("format", FormString (toLowerCase format))];
         config := {| responseType := "blob"; headers := [("Accept", "*/*")] |} |}
  end.


(** The request [edit] sends. *)
Definition edit_request {EditOperation} (rt : Runtime EditOperation)
  (file : File) (operations : list EditOperation) : Request :=
  {| url := "/api/v1/pdf/edit";
     data := [("file", FormFile file);
              ("operations", FormString (JSON_stringify rt operations))];
     config := {| responseType := "blob"; headers := [("Accept", "application/pdf")] |} |}.

End PdfService.

(** ** authService: the session entry in [localStorage] *)

Module AuthService.
Import Js.

Record User := { id : string; email : string; name : string }.

Record SessionData := { token : string; expiryTime : Z; user : User }.

(** The browser state the service touches: [localStorage], the default
    [Authorization] header of the HTTP client, and how many times the clock has been
    read so far. *)
Record World := {
  localStorage : gmap string string;
  Authorization : option string;
  clock_reads : nat }.

(** What the surroundings supply.  The two build-time variables ([VITE_TOKEN_EXPIRY]
    is given by its numeric value when it is set to a numeral); the clock, as the
    sequence of values successive [new Date().getTime()] calls return, in
    milliseconds; [JSON.stringify] on a session record and [JSON.parse] followed by
    the destructuring of the three fields (the record, or the message of what was
    thrown; a text that parses to something without the three fields, as [{}]
    does, is outside this model); whether [localStorage.setItem] accepts a write or throws; the two
    server exchanges of [login]. *)
Record Browser := {
  VITE_TOKEN_KEY : option string;
  VITE_TOKEN_EXPIRY : option Z;
  clock : nat -> Z;
  JSON_stringify_session : SessionData -> string;
  JSON_parse_session : string -> SessionData + string;
  setItem_accepts : string -> string -> bool;
  post_token : string -> string -> string + string;
  get_me : string -> User + string }.

(** A method of the service: the state is the browser's, and a thrown value is
    represented by its message. *)
Definition Method (A : Type) : Type := Eff World string A.

Local Open Scope js_scope.

Section Methods.
Variable browser : Browser.

(** [import.meta.env.VITE_TOKEN_KEY || 'pdf_manager_auth_token'] *)
Definition TOKEN_KEY : string :=
  match VITE_TOKEN_KEY browser with
  | Some k => if String.eqb k "" then "pdf_manager_auth_token" else k
  | None => "pdf_manager_auth_token"
  end.

(** [Number(import.meta.env.VITE_TOKEN_EXPIRY || 86400) * 1000], seconds to
    milliseconds. *)
Definition SESSION_DURATION : Z :=
  match VITE_TOKEN_EXPIRY browser with
  | Some seconds => seconds
  | None => 86400
  end * 1000.

(** [new Date().getTime()] *)
Definition Date_getTime : Method Z :=
  fun w =>
    (Returned (clock browser (clock_reads w)),
     {| localStorage := localStorage w;
        Authorization := Authorization w;
        clock_reads := S (clock_reads w) |}).

Definition localStorage_getItem (key : string) : Method (option string) :=
  fun w => (Returned (localStorage w !! key), w).

Definition localStorage_setItem (key value : string) : Method unit :=
  fun w =>
    if setItem_accepts browser key value then
      (Returned tt,
       {| localStorage := <[key := value]> (localStorage w);
          Authorization := Authorization w;
          clock_reads := clock_reads w |})
    else (Threw "QuotaExceededError", w).

Definition localStorage_removeItem (key : string) : Method unit :=
  fun w =>
    (Returned tt,
     {| localStorage := delete key (localStorage w);
        Authorization := Authorization w;
        clock_reads := clock_reads w |}).

(** Assignment to, and [delete] of,
    [axiosInstance.defaults.headers.common['Authorization']]. *)
Definition set_Authorization (value : option string) : Method unit :=
  fun w =>
    (Returned tt,
     {| localStorage := localStorage w;
        Authorization := value;
        clock_reads := clock_reads w |}).

Definition clearSession : Method unit :=
  localStorage_removeItem TOKEN_KEY ;;;
  set_Authorization None.

Definition setSession (t : string) (u : User) : Method unit :=
  try_catch
    (now <- Date_getTime ;;
     let expiryTime := now + SESSION_DURATION in
     let sessionData := {| token := t; expiryTime := expiryTime; user := u |} in
     localStorage_setItem TOKEN_KEY (JSON_stringify_session browser sessionData) ;;;
     set_Authorization (Some ("Bearer " ++ t)))
    (fun error => throw error).

Definition getSession : Method (option (string * User)) :=
  try_catch
    (sessionData <- localStorage_getItem TOKEN_KEY ;;
     match sessionData with
     | None => ret None
     | Some sessionText =>
         if String.eqb sessionText "" then ret None
         else
           match JSON_parse_session browser sessionText with
           | inr error => throw error
           | inl parsed =>
               now <- Date_getTime ;;
               if now >? expiryTime parsed then
                 clearSession ;;; ret None
               else
                 setSession (token parsed) (user parsed) ;;;
                 ret (Some (token parsed, user parsed))
           end
     end)
    (fun error => clearSession ;;; ret None).

Definition isAuthenticated : Method bool :=
  session <- getSession ;;
  ret (match session with Some _ => true | None => false end).

Definition validateToken (t : string) : Method User :=
  try_catch
    (match get_me browser t with
     | inl u => ret u
     | inr error => throw error
     end)
    (fun error => clearSession ;;; throw error).

Definition login (username password : string) : Method (string * User) :=
  try_catch
    (match post_token browser username password with
     | inr error => throw error
     | inl access_token =>
         u <- validateToken access_token ;;
         setSession access_token u ;;;
         ret (access_token, u)
     end)
    (fun error => throw error).

Definition logout : Method unit :=
  try_catch clearSession (fun error => ret tt).

End Methods.

End AuthService.

(** ** Dashboard: reordering the files selected for a merge *)

Module Dashboard.

(** [Array.prototype.splice(start, deleteCount, ...items)]: the removed elements
    and the array afterwards.  A negative [start] counts from the end; both
    arguments are clamped to the array. *)
Definition splice {A} (arr : list A) (start deleteCount : Z) (items : list A)
  : list A * list A :=
  let len := Z.of_nat (length arr) in
  let actualStart := if start <? 0 then Z.max (len + start) 0 else Z.min start len in
  let actualDeleteCount := Z.min (Z.max deleteCount 0) (len - actualStart) in
  let s := Z.to_nat actualStart in
  let d := Z.to_nat actualDeleteCount in
  (take d (drop s arr), (take s arr ++ items ++ drop (s + d) arr)%list).

(** The updater [moveFile] hands to [setSelectedFiles].  An array element is a file
    or [undefined] ([None]): destructuring an empty removed list yields
    [undefined], which the second [splice] then inserts. *)
Definition moveFile {File} (fromIndex toIndex : Z) (prevFiles : list (option File))
  : list (option File) :=
  let newFiles := prevFiles in
  let '(removed, newFiles) := splice newFiles fromIndex 1 [] in
  let movedFile := match removed with x :: _ => x | [] => None end in
  let '(_, newFiles) := splice newFiles toIndex 0 [movedFile] in
  newFiles.

(** The state hook of the export dialog and the buttons the dialog offers. *)
Definition exportFormat_initial : string := "docx".
Definition export_dialog_formats : list string :=
  ["docx"; "xlsx"; "txt"; "html"; "png"; "jpg"].

(** [ServiceCard['action']] *)
Inductive Action : Type :=
| Action_compress | Action_merge | Action_edit | Action_plagiarism
| Action_export | Action_convert | Action_view.

(** The state hooks that the file handlers below read and write. *)
Record State := {
  selectedFile : option PdfService.File;
  selectedFiles : list (option PdfService.File);
  currentAction : option Action;
  error : option string;
  success : option string }.

Definition handleRemoveFile (index : Z) (s : State) : State :=
  let newFiles := selectedFiles s in
  let '(_, newFiles) := splice newFiles index 1 [] in
  {| selectedFile := selectedFile s;
     selectedFiles := newFiles;
     currentAction := if (length newFiles =? 0)%nat then None else currentAction s;
     error := error s;
     success := success s |}.

Definition handleClearFiles (s : State) : State :=
  {| selectedFile := selectedFile s;
     selectedFiles := [];
     currentAction := None;
     error := error s;
     success := success s |}.

(** [onDrop] of the merge drop zone. *)
Definition onMergeDrop (acceptedFiles : list PdfService.File) (s : State) : State :=
  if (0 <? length acceptedFiles)%nat then
    {| selectedFile := selectedFile s;
       selectedFiles := (selectedFiles s ++ List.map Some acceptedFiles)%list;
       currentAction := Some Action_merge;
       error := error s;
       success := Some ("Added " ++ Js.String_of_number (Z.of_nat (length acceptedFiles))
                          ++ " file(s) for merging") |}
  else s.

(** The MIME types of [SUPPORTED_FORMATS], with their labels. *)
Definition SUPPORTED_FORMATS : list (string * string) :=
  [("application/vnd.openxmlformats-officedocument.wordprocessingml.document", "DOCX");
   ("application/msword", "DOC");
   ("application/vnd.openxmlformats-officedocument.spreadsheetml.sheet", "XLSX");
   ("application/vnd.ms-excel", "XLS");
   ("application/vnd.openxmlformats-officedocument.presentationml.presentation", "PPTX");
   ("application/vnd.ms-powerpoint", "PPT");
   ("text/plain", "TXT");
   ("text/html", "HTML");
   ("application/html", "HTML");
   ("text/htm", "HTML");
   ("image/jpeg", "JPG");
   ("image/png", "PNG");
   ("image/tiff", "TIFF")].

(** The property names every object literal inherits from [Object.prototype];
    indexing with one of them yields a function or an object, which is truthy. *)
Definition Object_prototype_keys : list string :=
  ["constructor"; "hasOwnProperty"; "isPrototypeOf"; "propertyIsEnumerable";
   "toLocaleString"; "toString"; "valueOf"; "__defineGetter__"; "__defineSetter__";
   "__lookupGetter__"; "__lookupSetter__"; "__proto__"].

(** Is [SUPPORTED_FORMATS[key]] truthy?  The labels of the table are not empty. *)
Definition SUPPORTED_FORMATS_has (key : string) : bool :=
  existsb (fun entry => String.eqb (fst entry) key) SUPPORTED_FORMATS
  || existsb (String.eqb key) Object_prototype_keys.

(** [onDrop] of the convert drop zone. *)
Definition onConvertDrop (acceptedFiles : list PdfService.File) (s : State) : State :=
  match acceptedFiles with
  | [] => s
  | file :: _ =>
      let selected :=
        {| selectedFile := Some file;
           selectedFiles := selectedFiles s;
           currentAction := Some Action_convert;
           error := error s;
           success := Some ("Selected " ++ PdfService.name file ++ " for conversion to PDF") |} in
      let refused (message : string) :=
        {| selectedFile := selectedFile s;
           selectedFiles := selectedFiles s;
           currentAction := currentAction s;
           error := Some message;
           success := success s |} in
      if String.eqb (PdfService.type file) "application/pdf" then
        refused ("PDF files cannot be converted. "
                   ++ "Please select a supported format like DOCX, DOC, XLSX, etc.")
      else if String.eqb (PdfService.type file) "text/html"
              || String.eqb (PdfService.type file) "application/html"
              || Js.endsWith (PdfService.name file) ".html"
              || Js.endsWith (PdfService.name file) ".htm" then selected
      else if SUPPORTED_FORMATS_has (PdfService.type file) then selected
      else refused ("File type " ++ Js.double_quote ++ PdfService.type file
                      ++ Js.double_quote
                      ++ " is not supported. Please select a supported file type.")
  end.

End Dashboard.

(** ** MergePDFDialog: the list of files of the merge dialog *)

Module MergePDFDialog.

(** [Array.prototype.filter] with a predicate on the element and its index; [i]
    is the index of the head. *)
Fixpoint filter_from {A} (keep : A -> Z -> bool) (i : Z) (arr : list A) : list A :=
  match arr with
  | [] => []
  | x :: rest =>
      if keep x i then x :: filter_from keep (i + 1) rest
      else filter_from keep (i + 1) rest
  end.

Definition handleFileSelect {File} (file : File) (prevFiles : list File) : list File :=
  (prevFiles ++ [file])%list.

Definition handleRemoveFile {File} (index : Z) (prevFiles : list File) : list File :=
  filter_from (fun _ i => negb (i =? index)) 0 prevFiles.

End MergePDFDialog.

(** ** PDFViewer: the page shown *)

Module PDFViewer.

(** [numPages] is [null] until the document has loaded. *)
Record State := { numPages : option Z; pageNumber : Z; loading : bool }.

Definition initial : State := {| numPages := None; pageNumber := 1; loading := true |}.

Definition onDocumentLoadSuccess (n : Z) (s : State) : State :=
  {| numPages := Some n; pageNumber := pageNumber s; loading := false |}.

(** [numPages || 1] *)
Definition numPages_or_1 (s : State) : Z :=
  match numPages s with
  | Some n => if n =? 0 then 1 else n
  | None => 1
  end.

Definition changePage (offset : Z) (s : State) : State :=
  let prevPageNumber := pageNumber s in
  let newPageNumber := prevPageNumber + offset in
  {| numPages := numPages s;
     pageNumber := Z.min (Z.max 1 newPageNumber) (numPages_or_1 s);
     loading := loading s |}.

(** The [disabled] attributes of the two buttons. *)
Definition previous_disabled (s : State) : bool := pageNumber s <=? 1.
Definition next_disabled (s : State) : bool := numPages_or_1 s <=? pageNumber s.

End PDFViewer.

(** ** PlagiarismResults: which matches are expanded *)

Module PlagiarismResults.

Definition handleExpandClick (index : Z) (prev : list Z) : list Z :=
  if existsb (Z.eqb index) prev
  then List.filter (fun i => negb (i =? index)) prev
  else (prev ++ [index])%list.

End PlagiarismResults.

(** ** AuthContext: the provider of the signed-in user *)

Module AuthContext.
Import Js.

(** The two state hooks of [AuthProvider]. *)
Record State := { user : option AuthService.User; isLoading : bool }.

Definition initial : State := {| user := None; isLoading := true |}.

(** A callback of the provider works on its own state and on the browser's. *)
Definition Callback (A : Type) : Type := Eff (State * AuthService.World) string A.

Local Open Scope js_scope.

Definition call {A} (m : AuthService.Method A) : Callback A :=
  fun cw => let '(r, w') := m (snd cw) in (r, (fst cw, w')).

Definition setUser (u : option AuthService.User) : Callback unit :=
  fun cw => (Returned tt, ({| user := u; isLoading := isLoading (fst cw) |}, snd cw)).

Definition setIsLoading (l : bool) : Callback unit :=
  fun cw => (Returned tt, ({| user := user (fst cw); isLoading := l |}, snd cw)).

Section Provider.
Variable browser : AuthService.Browser.

(** The effect that runs when the provider mounts. *)
Definition on_mount : Callback unit :=
  session <- call (AuthService.getSession browser) ;;
  match session with
  | Some (_, u) => setUser (Some u)
  | None => ret tt
  end ;;;
  setIsLoading false.

Definition login (email password : string) : Callback unit :=
  try_catch
    (logged <- call (AuthService.login browser email password) ;;
     setUser (Some (snd logged)))
    (fun error => throw error).

Definition logout : Callback unit :=
  call (AuthService.logout browser) ;;;
  setUser None.

End Provider.

Definition isAuthenticated (s : State) : bool :=
  match user s with Some _ => true | None => false end.

End AuthContext.

(** ** The backend, as far as the client depends on it *)

Module Backend.
Import Js PdfService.

Definition dq : string := String (ascii_of_nat 34) "".

(** The body [{ detail: <message> }] of an error response, for a message without
    quotes or backslashes. *)
Definition detail_body (message : string) : string :=
  "{" ++ dq ++ "detail" ++ dq ++ ":" ++ dq ++ message ++ dq ++ "}".

Definition json_error (code : Z) (message : string) : Response :=
  {| status := code;
     response_headers := {[ "content-type" := "application/json" ]};
     response_data := {| blob_type := "application/json"; text := detail_body message |} |}.

(** *** The compress endpoint

    [compress_pdf] of app/api/endpoints/pdf.py, the handler of [POST /compress],
    as its compiled form shows it (the source text is not kept; the compiled
    module is the third document of src/Dockerfile.frontend):

      async def compress_pdf(file, compression_level, current_user):
          mapped_level = max(1, min(3, ceil(compression_level / 3)))
          if not file.filename.lower().endswith('.pdf'):
              raise HTTPException(status_code=400, detail='File must be a PDF')
          try:
              contents = await file.read()
              compressed = pdf_service.compress_pdf(BytesIO(contents), mapped_level)
              return StreamingResponse(BytesIO(compressed),
                                       media_type='application/pdf', headers={...})
          except Exception as e:
              raise HTTPException(status_code=500,
                                  detail=f'Error compressing PDF: {str(e)}')

    [compression_level] is declared an [int] form field, without bounds.  On the
    characters modelled, [lower] and [endswith] of Python are [toLowerCase] and
    [endsWith]. *)

(** The uploaded file: its name and its bytes. *)
Record UploadFile := {
  filename : string;
  contents : string }.

(** What the handler completes with: the exception it raises or the response it
    returns. *)
Inductive Answer : Type :=
| HTTPException (status_code : Z) (detail : string)
| StreamingResponse (content : string) (media_type : string)
    (headers : list (string * string)).

(** [ceil(n / 3)] for an integer [n]. *)
Definition ceil_third (n : Z) : Z := - ((- n) / 3).

(** [max(1, min(3, ceil(compression_level / 3)))] *)
Definition mapped_level (compression_level : Z) : Z :=
  Z.max 1 (Z.min 3 (ceil_third compression_level)).

Section Endpoint.

(** [pdf_service.compress_pdf], of a module that is not among the sources: the
    compressed bytes, or the text of the exception it raises. *)
Variable pdf_service_compress_pdf : string -> Z -> string + string.

Definition compress_pdf (file : UploadFile) (compression_level : Z) : Answer :=
  let mapped_level := mapped_level compression_level in
  if negb (endsWith (toLowerCase (filename file)) ".pdf") then
    HTTPException 400 "File must be a PDF"
  else
    match pdf_service_compress_pdf (contents file) mapped_level with
    | inl compressed =>
        StreamingResponse compressed "application/pdf"
          [("Content-Disposition", "attachment; filename=compressed_" ++ filename file);
           ("Access-Control-Expose-Headers", "Content-Disposition");
           ("Access-Control-Allow-Origin", "*");
           ("Access-Control-Allow-Credentials", "true")]
    | inr e => HTTPException 500 ("Error compressing PDF: " ++ e)
    end.

End Endpoint.

(** The [file] part of the form as the handler receives it. *)
Definition upload_of (file : File) : UploadFile :=
  {| filename := name file; contents := content file |}.

(** The answer on the wire: the framework turns an [HTTPException] into the JSON
    body [{ detail: <message> }] with its status, and sends a response with
    status 200, its media type as content type and its headers, whose names the
    HTTP client of the browser reads in lower case. *)
Definition as_response (answer : Answer) : Response :=
  match answer with
  | HTTPException status_code detail => json_error status_code detail
  | StreamingResponse content media_type headers =>
      {| status := 200;
         response_headers :=
           <[ "content-type" := media_type ]>
             (list_to_map (List.map (fun h => (toLowerCase (fst h), snd h)) headers));
         response_data := {| blob_type := media_type; text := content |} |}
  end.

End Backend.

(** ** Concrete files, responses and runtimes *)

Module Sample.
Import Js PdfService.

Definition report_pdf : File :=
  {| name := "report.pdf"; type := "application/pdf"; content := "%PDF-1.7 report" |}.
Definition annex_pdf : File :=
  {| name := "annex.pdf"; type := "application/pdf"; content := "%PDF-1.7 annex" |}.
Definition notes_txt : File :=
  {| name := "notes.txt"; type := "text/plain"; content := "notes" |}.
Definition scan : File :=
  {| name := "scan"; type := "application/pdf"; content := "%PDF-1.4 scan" |}.
Definition letter_docx : File :=
  {| name := "letter.docx";
     type := "application/vnd.openxmlformats-officedocument.wordprocessingml.document";
     content := "PK letter" |}.

Definition pdf_blob : Blob := {| blob_type := "application/pdf"; text := "%PDF-1.7 out" |}.

Definition ok_pdf : Response :=
  {| status := 200;
     response_headers := {[ "content-type" := "application/pdf" ]};
     response_data := pdf_blob |}.

(** [JSON.parse] restricted to texts of the one shape [{ detail: <message> }]
    with a message free of quotes and backslashes; every other text is refused
    here. *)
Fixpoint plain_until_close (s : string) : option string :=
  match s with
  | EmptyString => None
  | String c rest =>
      if Ascii.eqb c (ascii_of_nat 34) then
        if String.eqb rest "}" then Some "" else None
      else if Ascii.eqb c (ascii_of_nat 92) then None
      else match plain_until_close rest with
           | Some m => Some (String c m)
           | None => None
           end
  end.

Definition parse_detail (s : string) : Json + string :=
  let opening := "{" ++ Backend.dq ++ "detail" ++ Backend.dq ++ ":" ++ Backend.dq in
  if String.prefix opening s then
    match plain_until_close (substring (String.length opening)
                               (String.length s - String.length opening) s) with
    | Some m => inl (JObject [("detail", JString m)])
    | None => inr "Unexpected token in JSON"
    end
  else inr "Unexpected token in JSON".

(** Two compression tools: one that succeeds and notes the level it was given,
    one that fails. *)
Definition shrinking (contents : string) (level : Z) : string + string :=
  inl (contents ++ " /level " ++ pretty level).
Definition unreadable (contents : string) (level : Z) : string + string :=
  inr "cannot read the document".

(** The rejection with which the HTTP client delivers a 400 answer. *)
Definition bad_request (message : string) : Outcome Response :=
  Threw (AxiosError "Request failed with status code 400"
           (Some (Backend.json_error 400 message))).

(** A runtime whose HTTP client answers every request with [reply]. *)
Definition answering (reply : Outcome Response) : Runtime Empty_set :=
  {| post := fun _ => reply;
     JSON_parse := parse_detail;
     null_property_message := "Cannot read properties of null (reading 'detail')";
     JSON_stringify := fun _ => "[]" |}.

End Sample.

(** ** A concrete browser for the session service *)

Module AuthSample.
Import AuthService.

Definition alice : User :=
  {| id := "u-1"; email := "alice@example.org"; name := "Alice" |}.

Definition quoted (s : string) : string := Backend.dq ++ s ++ Backend.dq.

(** [JSON.stringify] of a session record whose strings need no escaping. *)
Definition stringify (d : SessionData) : string :=
  "{" ++ quoted "token" ++ ":" ++ quoted (token d)
  ++ "," ++ quoted "expiryTime" ++ ":" ++ pretty (expiryTime d)
  ++ "," ++ quoted "user" ++ ":{" ++ quoted "id" ++ ":" ++ quoted (id (user d))
  ++ "," ++ quoted "email" ++ ":" ++ quoted (email (user d))
  ++ "," ++ quoted "name" ++ ":" ++ quoted (name (user d)) ++ "}}".

(** The clock: one hour passes between two readings. *)
Definition hourly_clock (n : nat) : Z := 1700000000000 + 3600000 * Z.of_nat n.

(** The entries that occur in the runs below, and [JSON.parse] restricted to
    their texts; every other text is refused here. *)
Definition login_entry : SessionData :=
  {| token := "tok-123"; expiryTime := 1700086400000; user := alice |}.
Definition refreshed_entry : SessionData :=
  {| token := "tok-123"; expiryTime := 1700093600000; user := alice |}.

Definition parse (s : string) : SessionData + string :=
  match List.find (fun d => String.eqb (stringify d) s) [login_entry; refreshed_entry] with
  | Some d => inl d
  | None => inr "Unexpected token in JSON"
  end.

Definition laptop : Browser :=
  {| VITE_TOKEN_KEY := None;
     VITE_TOKEN_EXPIRY := None;
     clock := hourly_clock;
     JSON_stringify_session := stringify;
     JSON_parse_session := parse;
     setItem_accepts := fun _ _ => true;
     post_token := fun username password =>
       if String.eqb username "alice" && String.eqb password "secret"
       then inl "tok-123" else inr "Request failed with status code 401";
     get_me := fun t =>
       if String.eqb t "tok-123" then inl alice
       else inr "Request failed with status code 401" |}.

(** Before any login; right after the login; the same storage thirty hours
    later. *)
Definition anonymous : World :=
  {| localStorage := ∅; Authorization := None; clock_reads := 0 |}.
Definition logged_in : World :=
  {| localStorage := {[ "pdf_manager_auth_token" := stringify login_entry ]};
     Authorization := Some "Bearer tok-123";
     clock_reads := 1 |}.
Definition much_later : World :=
  {| localStorage := {[ "pdf_manager_auth_token" := stringify login_entry ]};
     Authorization := Some "Bearer tok-123";
     clock_reads := 30 |}.

End AuthSample.

(** ** Further concrete states and browsers *)

Module MoreSamples.
Import Js Sample AuthSample.

(** The Dashboard with one file in the merge list, and with three. *)
Definition one_listed : Dashboard.State :=
  {| Dashboard.selectedFile := None;
     Dashboard.selectedFiles := [Some report_pdf];
     Dashboard.currentAction := Some Dashboard.Action_merge;
     Dashboard.error := None;
     Dashboard.success := None |}.

Definition three_listed : Dashboard.State :=
  {| Dashboard.selectedFile := None;
     Dashboard.selectedFiles := [Some report_pdf; Some annex_pdf; Some report_pdf];
     Dashboard.currentAction := Some Dashboard.Action_merge;
     Dashboard.error := None;
     Dashboard.success := None |}.

Definition nothing_selected : Dashboard.State :=
  {| Dashboard.selectedFile := None;
     Dashboard.selectedFiles := [];
     Dashboard.currentAction := None;
     Dashboard.error := None;
     Dashboard.success := None |}.

(** A page saved from the web, declared as HTML. *)
Definition page_html : PdfService.File :=
  {| PdfService.name := "page.html"; PdfService.type := "text/html";
     PdfService.content := "<html></html>" |}.

(** A resolved answer whose body is a JSON error although the status is 200. *)
Definition json_200 : PdfService.Response := Backend.json_error 200 "Could not edit".

(** A rejection without a response: the network is down. *)
Definition network_down : PdfService.Outcome PdfService.Response :=
  Threw (AxiosError "Network Error" None).

(** A resolved answer declared as JSON whose body is a page of a proxy. *)
Definition json_garbage : PdfService.Response :=
  {| PdfService.status := 200;
     PdfService.response_headers := {[ "content-type" := "application/json" ]};
     PdfService.response_data :=
       {| PdfService.blob_type := "application/json";
          PdfService.text := "<html>Bad gateway</html>" |} |}.




(** Options that bring their own [Accept] header. *)
Definition own_accept : PdfService.RequestOptions :=
  {| PdfService.options_responseType := Some "blob";
     PdfService.options_headers := [("Accept", "*/*"); ("X-Trace", "1")] |}.

(** A browser whose server issues the token but fails the check of it. *)
Definition validation_down : AuthService.Browser :=
  {| AuthService.VITE_TOKEN_KEY := None;
     AuthService.VITE_TOKEN_EXPIRY := None;
     AuthService.clock := hourly_clock;
     AuthService.JSON_stringify_session := stringify;
     AuthService.JSON_parse_session := parse;
     AuthService.setItem_accepts := fun _ _ => true;
     AuthService.post_token := fun _ _ => inl "tok-999";
     AuthService.get_me := fun _ => inr "Request failed with status code 401" |}.

(** A browser whose storage refuses every write. *)
Definition storage_full : AuthService.Browser :=
  {| AuthService.VITE_TOKEN_KEY := None;
     AuthService.VITE_TOKEN_EXPIRY := None;
     AuthService.clock := hourly_clock;
     AuthService.JSON_stringify_session := stringify;
     AuthService.JSON_parse_session := parse;
     AuthService.setItem_accepts := fun _ _ => false;
     AuthService.post_token := AuthService.post_token laptop;
     AuthService.get_me := AuthService.get_me laptop |}.

(** A world whose entry is not JSON, and one that also holds a foreign key. *)
Definition corrupted : AuthService.World :=
  {| AuthService.localStorage := {[ "pdf_manager_auth_token" := "not json" ]};
     AuthService.Authorization := Some "Bearer tok-123";
     AuthService.clock_reads := 1 |}.

Definition with_theme : AuthService.World :=
  {| AuthService.localStorage :=
       {[ "pdf_manager_auth_token" := stringify login_entry; "theme" := "dark" ]};
     AuthService.Authorization := Some "Bearer tok-123";
     AuthService.clock_reads := 1 |}.

(** The provider once Alice has signed in. *)
Definition alice_signed_in : AuthContext.State :=
  {| AuthContext.user := Some alice; AuthContext.isLoading := false |}.

End MoreSamples.

(** * Properties of pdfService.ts *)

Module PdfServiceProofs.
Import Js PdfService.

Section Exchange.
Context {EditOperation : Type} (rt : Runtime EditOperation).

(** Reading an error body issues no request and always throws. *)
Lemma throw_detail_log fb b log : snd (throw_detail rt fb b log) = log.
Proof.
  unfold throw_detail, bind, parse_blob.
  destruct (JSON_parse rt (text b)) as [j|msg]; simpl; [|done].
  by destruct j.
Qed.

Lemma throw_detail_throws fb b log :
  exists message, fst (throw_detail rt fb b log) = Threw (Error message).
Proof.
  unfold throw_detail, bind, parse_blob.
  destruct (JSON_parse rt (text b)) as [j|msg]; simpl; [|by eexists].
  destruct j; simpl; try by eexists.
  unfold Error_or. destruct (member _ _); [destruct (truthy _)|]; by eexists.
Qed.

Lemma check_response_log fb r log : snd (check_response rt fb r log) = log.
Proof.
  unfold check_response.
  destruct (is_json _); [apply throw_detail_log | done].
Qed.

Lemma on_error_log fb e log : snd (on_error rt fb e log) = log.
Proof.
  destruct e as [m | m [r|]]; simpl; try done.
  unfold try_catch.
  pose proof (throw_detail_log fb (response_data r) log) as Hlog.
  destruct (throw_detail_throws fb (response_data r) log) as [e He].
  destruct (throw_detail rt fb (response_data r) log) as [o log'].
  simpl in *. by subst.
Qed.

(** The handler always throws an [Error]; when the rejected request carried a
    response, the message is the fallback whatever the body said. *)
Lemma on_error_with_response fb m r log :
  fst (on_error rt fb (AxiosError m (Some r)) log) = Threw (Error fb).
Proof.
  simpl. unfold try_catch.
  destruct (throw_detail_throws fb (response_data r) log) as [e He].
  destruct (throw_detail rt fb (response_data r) log) as [o log'].
  simpl in *. by subst.
Qed.

Lemma on_error_throws fb e log :
  exists message, fst (on_error rt fb e log) = Threw (Error message).
Proof.
  destruct e as [m | m [r|]]; try (simpl; by eexists).
  rewrite on_error_with_response. by eexists.
Qed.

(** A thrown plain [Error] passes through the handler with its message, unless
    that message is empty. *)
Lemma on_error_plain fb m log :
  m <> "" -> fst (on_error rt fb (Error m) log) = Threw (Error m).
Proof.
  intros Hm. simpl. destruct (String.eqb_spec m ""); [done|]. done.
Qed.

Lemma exchange_log fb u formData c log :
  snd (exchange rt fb u formData c log)
  = (log ++ [{| url := u; data := formData; config := c |}])%list.
Proof.
  unfold exchange, try_catch, bind, axiosInstance_post.
  set (request := {| url := u; data := formData; config := c |}).
  destruct (post rt request) as [r|e].
  - pose proof (check_response_log fb r (log ++ [request])%list) as H.
    destruct (check_response rt fb r _) as [[b|e] log'] eqn:E; simpl in *; subst; [done|].
    apply on_error_log.
  - apply on_error_log.
Qed.

(** A resolved answer that is not JSON: its payload is the result. *)
Lemma exchange_binary fb u formData c log r :
  post rt {| url := u; data := formData; config := c |} = Returned r ->
  is_json (response_headers r !! "content-type") = false ->
  fst (exchange rt fb u formData c log) = Returned (response_data r).
Proof.
  intros Hpost Hct.
  unfold exchange, try_catch, bind, axiosInstance_post, check_response.
  by rewrite Hpost, Hct.
Qed.

(** A resolved JSON answer whose body parses to an object: the error thrown in the
    [try] block passes through the handler. *)
Lemma exchange_json_object fb u formData c log r members :
  post rt {| url := u; data := formData; config := c |} = Returned r ->
  is_json (response_headers r !! "content-type") = true ->
  JSON_parse rt (text (response_data r)) = inl (JObject members) ->
  fst (exchange rt fb u formData c log)
  = Threw (match Error_or (member "detail" members) fb with
           | Error m => Error (if String.eqb m "" then fb else m)
           | e => e
           end).
Proof.
  intros Hpost Hct Hparse.
  unfold exchange, try_catch, bind, axiosInstance_post, check_response,
    throw_detail, bind, parse_blob.
  rewrite Hpost, Hct, Hparse. simpl.
  unfold Error_or. destruct (member "detail" members); [destruct (truthy _)|]; done.
Qed.

Lemma exchange_json_detail fb u formData c log r members d :
  post rt {| url := u; data := formData; config := c |} = Returned r ->
  is_json (response_headers r !! "content-type") = true ->
  JSON_parse rt (text (response_data r)) = inl (JObject members) ->
  member "detail" members = Some (JString d) ->
  fst (exchange rt fb u formData c log)
  = Threw (Error (if String.eqb d "" then fb else d)).
Proof.
  intros Hpost Hct Hparse Hd.
  rewrite (exchange_json_object _ _ _ _ _ r members) by done.
  rewrite Hd. unfold Error_or, truthy. simpl.
  destruct (String.eqb_spec d "") as [->|Hne]; simpl.
  - by destruct (String.eqb fb "").
  - by destruct (String.eqb_spec d "").
Qed.

Lemma exchange_json_no_detail fb u formData c log r members :
  post rt {| url := u; data := formData; config := c |} = Returned r ->
  is_json (response_headers r !! "content-type") = true ->
  JSON_parse rt (text (response_data r)) = inl (JObject members) ->
  member "detail" members = None ->
  fst (exchange rt fb u formData c log) = Threw (Error fb).
Proof.
  intros Hpost Hct Hparse Hd.
  rewrite (exchange_json_object _ _ _ _ _ r members) by done.
  rewrite Hd. simpl. by destruct (String.eqb fb "").
Qed.

(** A resolved JSON answer and a rejection both make the exchange throw an
    [Error], whatever the body holds. *)
Lemma exchange_json_throws fb u formData c log r :
  post rt {| url := u; data := formData; config := c |} = Returned r ->
  is_json (response_headers r !! "content-type") = true ->
  exists message, fst (exchange rt fb u formData c log) = Threw (Error message).
Proof.
  intros Hpost Hct.
  unfold exchange, try_catch, bind, axiosInstance_post, check_response.
  rewrite Hpost, Hct.
  destruct (throw_detail_throws fb (response_data r)
              (log ++ [{| url := u; data := formData; config := c |}])%list) as [m Hm].
  destruct (throw_detail rt fb (response_data r) _) as [o log'].
  simpl in Hm. subst o. apply on_error_throws.
Qed.

Lemma exchange_rejected fb u formData c log e :
  post rt {| url := u; data := formData; config := c |} = Threw e ->
  exists message, fst (exchange rt fb u formData c log) = Threw (Error message).
Proof.
  intros Hpost.
  unfold exchange, try_catch, bind, axiosInstance_post.
  rewrite Hpost. apply on_error_throws.
Qed.

(** A rejection that carries the server's response loses the detail of its body. *)
Lemma exchange_rejected_with_response fb u formData c log m r :
  post rt {| url := u; data := formData; config := c |} = Threw (AxiosError m (Some r)) ->
  fst (exchange rt fb u formData c log) = Threw (Error fb).
Proof.
  intros Hpost.
  unfold exchange, try_catch, bind, axiosInstance_post.
  rewrite Hpost. apply on_error_with_response.
Qed.

(** The form data of [merge]: one [files] entry per file, in order. *)
Lemma merge_formData (files : list File) (acc : FormData) :
  fold_left (fun fd file => append fd "files" (FormFile file)) files acc
  = (acc ++ List.map (fun file => ("files", FormFile file)) files)%list.
Proof.
  revert acc. induction files as [|f files IH]; intros acc; simpl.
  - by rewrite app_nil_r.
  - rewrite IH. unfold append. by rewrite <- app_assoc.
Qed.

(** Each operation either stops at its validation, before any request, or is one
    exchange. *)
Lemma perform_shape (op : Operation EditOperation) :
  (exists message, run (perform rt op) = (Threw (Error message), []))
  \/ perform rt op
     = exchange rt (fallback_message op) (url (request_of rt op))
         (data (request_of rt op)) (config (request_of rt op)).
Proof.
  destruct op as [file level | files | file operations | file | file format]; simpl.
  - unfold compress. destruct (includes (type file) "pdf"); simpl; [by right | left; by eexists].
  - unfold merge. destruct (Z.of_nat (length files) <? 2); [left; by eexists | right].
    by rewrite merge_formData.
  - by right.
  - unfold convert. destruct (String.eqb (type file) "application/pdf");
      [left; by eexists | by right].
  - unfold export. destruct (includes (type file) "pdf"); cbn [negb]; [|left; by eexists].
    destruct (array_includes supportedFormats (toLowerCase format)); cbn [negb];
      [by right | left; by eexists].
Qed.

Lemma perform_requests (op : Operation EditOperation) request :
  requests (perform rt op) = [request] ->
  request = request_of rt op
  /\ perform rt op
     = exchange rt (fallback_message op) (url (request_of rt op))
         (data (request_of rt op)) (config (request_of rt op)).
Proof.
  intros Hreq. destruct (perform_shape op) as [[m Hm] | Hex].
  - unfold requests in Hreq. by rewrite Hm in Hreq.
  - split; [|done].
    unfold requests, run in Hreq. rewrite Hex, exchange_log in Hreq.
    simpl in Hreq. injection Hreq as <-. by destruct (request_of rt op).
Qed.

(** [contentType && contentType.includes('application/json')] holds exactly when
    the header is present and includes the JSON type. *)
Lemma is_json_includes (contentType : option string) :
  is_json contentType = true
  <-> exists ct, contentType = Some ct /\ includes ct "application/json" = true.
Proof.
  split.
  - destruct contentType as [ct|]; simpl; [|done].
    intros [_ H]%andb_prop. by exists ct.
  - intros (ct & -> & H). simpl. rewrite H.
    destruct ct; [done | by rewrite andb_true_r].
Qed.

Lemma is_json_excludes (contentType : option string) :
  is_json contentType = false
  <-> contentType = None
      \/ exists ct, contentType = Some ct /\ includes ct "application/json" = false.
Proof.
  split.
  - destruct contentType as [ct|]; [|by left].
    intros H. right. exists ct. split; [done|].
    destruct (includes ct "application/json") eqn:E; [|done].
    assert (is_json (Some ct) = true) as Ht by (apply is_json_includes; eauto).
    congruence.
  - intros [-> | (ct & -> & H)]; [done|].
    simpl. rewrite H. apply andb_false_r.
Qed.

(** C1, as amended.  Take an operation among compress, merge, preview, convert and
    export that issued its request.  If the HTTP client resolves the request with
    a response: when the content-type header is absent or does not include
    [application/json], the operation returns the payload of the response
    unchanged; when it includes [application/json] and the body parses to an
    object, the operation throws an error whose message is the [detail] string
    of that object if it is not empty, and the fallback message of the operation
    if [detail] is empty or missing.  If the HTTP client rejects the request, the
    operation throws an error. *)
Theorem answer_sniffing (op : Operation EditOperation) (request : Request) :
  requests (perform rt op) = [request] ->
  (forall response,
      post rt request = Returned response ->
      let contentType := response_headers response !! "content-type" in
      (contentType = None
       \/ (exists ct, contentType = Some ct /\ includes ct "application/json" = false) ->
       result (perform rt op) = Returned (response_data response))
      /\ (forall ct members,
            contentType = Some ct ->
            includes ct "application/json" = true ->
            JSON_parse rt (text (response_data response)) = inl (JObject members) ->
            (forall d, member "detail" members = Some (JString d) -> d <> "" ->
                       result (perform rt op) = Threw (Error d))
            /\ (member "detail" members = Some (JString "")
                \/ member "detail" members = None ->
                result (perform rt op) = Threw (Error (fallback_message op)))))
  /\ (forall e,
        post rt request = Threw e ->
        exists message, result (perform rt op) = Threw (Error message)).
Proof.
  intros Hreq. destruct (perform_requests op request Hreq) as [-> Hex].
  unfold result, run. rewrite Hex.
  split.
  - intros response Hpost. cbv zeta.
    assert (post rt {| url := url (request_of rt op);
                       data := data (request_of rt op);
                       config := config (request_of rt op) |} = Returned response)
      as Hpost' by (by destruct (request_of rt op)).
    split.
    + intros Hct%is_json_excludes.
      by apply (exchange_binary _ _ _ _ _ response).
    + intros ct members Hhdr Hinc Hparse.
      assert (is_json (response_headers response !! "content-type") = true) as Hct
        by (apply is_json_includes; eauto).
      split.
      * intros d Hd Hne.
        rewrite (exchange_json_detail _ _ _ _ _ response members d) by done.
        by destruct (String.eqb_spec d "").
      * intros [Hd | Hd].
        -- by rewrite (exchange_json_detail _ _ _ _ _ response members "").
        -- by rewrite (exchange_json_no_detail _ _ _ _ _ response members).
  - intros e Hpost. apply (exchange_rejected _ _ _ _ _ e).
    by destruct (request_of rt op).
Qed.

(** C2.  [merge] on fewer than two files throws the error that asks for at least
    two files and issues no request; on two or more files it issues exactly one
    request, a POST to the merge endpoint. *)
Theorem merge_file_count (files : list File) :
  ((length files < 2)%nat ->
   run (merge rt files)
   = (Threw (Error "At least two PDF files are required for merging"), []))
  /\ ((2 <= length files)%nat ->
      exists request,
        requests (merge rt files) = [request]
        /\ url request = "/api/v1/pdf/merge").
Proof.
  split; intros Hlen.
  - unfold merge. destruct (Z.ltb_spec (Z.of_nat (length files)) 2); [done | lia].
  - exists (request_of rt (Merge files)). split; [|done].
    unfold requests, run, merge.
    destruct (Z.ltb_spec (Z.of_nat (length files)) 2); [lia|].
    rewrite merge_formData.
    exact (exchange_log _ _ _ _ []).
Qed.


(** C5.  [convert] on a file whose declared type is [application/pdf] throws and
    issues no request; on a file of any other declared type it issues the request
    to the convert endpoint, carrying the file. *)
Theorem convert_pdf_rejected (file : File) :
  (type file = "application/pdf" ->
   run (convert rt file)
   = (Threw (Error "File is already a PDF. Please select a different format to convert."),
      []))
  /\ (type file <> "application/pdf" ->
      exists request,
        requests (convert rt file) = [request]
        /\ url request = "/api/v1/pdf/convert"
        /\ data request = [("file", FormFile file)]).
Proof.
  split; intros Htype; unfold convert.
  - by rewrite Htype.
  - exists (request_of rt (Convert file)). repeat split.
    destruct (String.eqb_spec (type file) "application/pdf"); [done|].
    exact (exchange_log _ _ _ _ []).
Qed.

(** C8.  [compress] on a file whose declared type does not include [pdf] throws
    an error whose message mentions PDF and issues no request. *)
Theorem compress_non_pdf (file : File) (level : CompressionLevel) :
  includes (type file) "pdf" = false ->
  exists message,
    run (compress rt file level) = (Threw (Error message), [])
    /\ includes message "PDF" = true.
Proof.
  intros Htype. exists "Invalid file type. Please select a PDF file.".
  unfold compress. by rewrite Htype.
Qed.

(** Substrings of a concatenation. *)
Lemma prefix_app (b c : string) : String.prefix b (b ++ c) = true.
Proof.
  induction b as [|x b IH]; simpl; [by destruct c|].
  by destruct (ascii_dec x x).
Qed.

Lemma includes_unfold (s t : string) :
  includes s t
  = if String.prefix t s then true
    else match s with EmptyString => false | String _ rest => includes rest t end.
Proof. by destruct s. Qed.

Lemma includes_app (a b c : string) : includes (a ++ b ++ c) b = true.
Proof.
  induction a as [|x a IH].
  - change (includes (b ++ c) b = true). by rewrite includes_unfold, prefix_app.
  - change (includes (String x (a ++ b ++ c)) b = true).
    rewrite includes_unfold, IH. by destruct (String.prefix _ _).
Qed.

(** C4, as amended.  Let [format] be outside the supported set, membership being
    tested on the lower-cased string.  Then [export] issues no request.  On a file
    whose declared type includes [pdf] it throws the error whose message names
    [format] as given, and so it does for every other spelling [format'] of the
    same lower-cased string; on a file whose declared type does not include [pdf]
    it throws the invalid-file-type error instead. *)
Theorem export_unsupported_format (file : File) (format : string) :
  array_includes supportedFormats (toLowerCase format) = false ->
  requests (export rt file format) = []
  /\ (includes (type file) "pdf" = true ->
      (exists message,
          result (export rt file format) = Threw (Error message)
          /\ message = "Unsupported format: " ++ format
                       ++ ". Supported formats are: xlsx, txt, html, png, jpg, jpeg"
          /\ includes message format = true)
      /\ (forall format',
             toLowerCase format' = toLowerCase format ->
             run (export rt file format')
             = (Threw (Error ("Unsupported format: " ++ format'
                                ++ ". Supported formats are: xlsx, txt, html, png, jpg, jpeg")),
                [])))
  /\ (includes (type file) "pdf" = false ->
      result (export rt file format)
      = Threw (Error "Invalid file type. Please select a PDF file.")).
Proof.
  intros Hfmt. unfold requests, result, run, export.
  destruct (includes (type file) "pdf"); cbn [negb].
  - rewrite Hfmt. cbn [negb]. split; [done|]. split; [|done].
    intros _. split.
    + eexists. split; [reflexivity|]. split; [reflexivity|].
      apply (includes_app "Unsupported format: " format).
    + intros format' Heq. by rewrite Heq, Hfmt.
  - split; [done|]. split; [done|]. done.
Qed.

(** C7 (corrected).  No compression level is refused for being out of range.
    For every level that is a safe integer, from 1 to 4 or not: on a file whose
    declared type includes [pdf] the client issues the one request, whose
    [compression_level] field is [String(level)], which is the numeral [1] to [4]
    for the levels 1 to 4 and a text that no other level gives.  The handler of
    the backend maps the level to [max(1, min(3, ceil(level / 3)))], which is 1
    for a level up to 3, 2 for 4 to 6 and 3 from 7 on.  What the handler raises
    is either the status 400 with [File must be a PDF], for a file whose name
    does not end in [.pdf], and then whatever the level, or the status 500, when
    the compression tool fails on the mapped level; when the name ends in [.pdf]
    and the tool succeeds on the mapped level, the handler returns the
    compressed bytes. *)
Theorem compress_level_clamped (tool : string -> Z -> string + string)
    (file : File) (level : CompressionLevel) :
  isSafeInteger level = true ->
  let request := request_of rt (Compress file level) in
  let upload := Backend.upload_of file in
  (includes (type file) "pdf" = true ->
   requests (compress rt file level) = [request]
   /\ data request
      = [("file", FormFile file);
         ("compression_level", FormString (String_of_number level))])
  /\ (1 <= level <= 4 ->
      String_of_number level = String (ascii_of_N (48 + Z.to_N level)) "")
  /\ (forall level', String_of_number level' = String_of_number level -> level' = level)
  /\ 1 <= Backend.mapped_level level <= 3
  /\ (Backend.mapped_level level = 1 <-> level <= 3)
  /\ (Backend.mapped_level level = 2 <-> 4 <= level <= 6)
  /\ (Backend.mapped_level level = 3 <-> 7 <= level)
  /\ (forall status_code detail,
        Backend.compress_pdf tool upload level
        = Backend.HTTPException status_code detail ->
        (status_code = 400
         /\ detail = "File must be a PDF"
         /\ endsWith (toLowerCase (name file)) ".pdf" = false
         /\ forall level',
              Backend.compress_pdf tool upload level'
              = Backend.HTTPException 400 "File must be a PDF")
        \/ (status_code = 500
            /\ endsWith (toLowerCase (name file)) ".pdf" = true
            /\ exists e,
                 tool (content file) (Backend.mapped_level level) = inr e
                 /\ detail = "Error compressing PDF: " ++ e))
  /\ (endsWith (toLowerCase (name file)) ".pdf" = true ->
      forall compressed,
        tool (content file) (Backend.mapped_level level) = inl compressed ->
        exists headers,
          Backend.compress_pdf tool upload level
          = Backend.StreamingResponse compressed "application/pdf" headers).
Proof.
  intros _ request upload.
  assert (Hceil : forall n, 3 * Backend.ceil_third n - 2 <= n <= 3 * Backend.ceil_third n).
  { intros n. unfold Backend.ceil_third.
    pose proof (Z.div_mod (- n) 3 ltac:(lia)) as Hdm.
    pose proof (Z.mod_pos_bound (- n) 3 ltac:(lia)) as Hb. lia. }
  split; [|split; [|split; [|split; [|split; [|split; [|split; [|split]]]]]]].
  - intros Htype. split; [|done].
    unfold requests, run, compress. rewrite Htype. cbn [negb].
    exact (exchange_log _ _ _ _ []).
  - intros Hrange.
    assert (level = 1 \/ level = 2 \/ level = 3 \/ level = 4) as Hcases by lia.
    destruct Hcases as [-> | [-> | [-> | ->]]]; reflexivity.
  - intros level' Heq. unfold String_of_number in Heq. by simplify_eq.
  - unfold Backend.mapped_level. lia.
  - unfold Backend.mapped_level. specialize (Hceil level). lia.
  - unfold Backend.mapped_level. specialize (Hceil level). lia.
  - unfold Backend.mapped_level. specialize (Hceil level). lia.
  - intros status_code detail. unfold Backend.compress_pdf. subst upload. simpl.
    destruct (endsWith (toLowerCase (name file)) ".pdf"); cbn [negb].
    + destruct (tool (content file) (Backend.mapped_level level)) as [c|e]; [done|].
      intros [= <- <-]. right. split; [done|]. split; [done|]. by exists e.
    + intros [= <- <-]. left. done.
  - intros Hname compressed Htool. unfold Backend.compress_pdf. subst upload. simpl.
    rewrite Hname, Htool. cbn [negb]. by eexists.
Qed.

(** The client itself applies no range check: whatever the level, a PDF-typed
    file makes [compress] send the request with that level. *)
Lemma compress_forwards_any_level (file : File) (level : CompressionLevel) :
  includes (type file) "pdf" = true ->
  requests (compress rt file level) = [request_of rt (Compress file level)].
Proof.
  intros Htype. unfold requests, run, compress. rewrite Htype.
  exact (exchange_log _ _ _ _ []).
Qed.

(** C9, as amended.  [docx] is the default of [export]'s [format] parameter, the
    initial export format of the Dashboard and one of the formats its dialog
    offers, and it is not in the supported list.  So [export] with [docx] never
    issues a request: on a file whose declared type includes [pdf] it throws the
    unsupported-format error naming [docx], on any other file the
    invalid-file-type error. *)
Theorem export_docx (file : File) :
  export_without_format rt file = export rt file "docx"
  /\ Dashboard.exportFormat_initial = "docx"
  /\ In "docx" Dashboard.export_dialog_formats
  /\ supportedFormats = ["xlsx"; "txt"; "html"; "png"; "jpg"; "jpeg"]
  /\ ~ In "docx" supportedFormats
  /\ requests (export rt file "docx") = []
  /\ (includes (type file) "pdf" = true ->
      result (export rt file "docx")
      = Threw (Error
          "Unsupported format: docx. Supported formats are: xlsx, txt, html, png, jpg, jpeg"))
  /\ (includes (type file) "pdf" = false ->
      result (export rt file "docx")
      = Threw (Error "Invalid file type. Please select a PDF file.")).
Proof.
  split; [done|]. split; [done|]. split; [by left|]. split; [done|].
  split.
  { simpl. intros H. repeat destruct H as [H|H]; try discriminate H. done. }
  unfold requests, result, run, export.
  destruct (includes (type file) "pdf"); cbn [negb]; by repeat split.
Qed.

End Exchange.

(** ** Concrete runs *)

Import Sample.

(** C1, counterexample.  The server answers a compress request with a response
    that resolves, whose content type is [application/json] and whose body is
    [{ detail: <empty string> }]: the error the operation throws does not carry
    that detail, its message is the fallback of the operation. *)
Lemma empty_detail_not_carried :
  let rt := answering (Returned (Backend.json_error 200 "")) in
  let response := Backend.json_error 200 "" in
  requests (compress rt report_pdf MEDIUM)
  = [request_of rt (Compress report_pdf MEDIUM)]
  /\ post rt (request_of rt (Compress report_pdf MEDIUM)) = Returned response
  /\ response_headers response !! "content-type" = Some "application/json"
  /\ JSON_parse rt (text (response_data response)) = inl (JObject [("detail", JString "")])
  /\ result (compress rt report_pdf MEDIUM) = Threw (Error "Failed to compress PDF")
  /\ result (compress rt report_pdf MEDIUM) <> Threw (Error "").
Proof. vm_compute. repeat split; discriminate. Qed.

(** The same operation with a detail that is not empty. *)
Lemma answer_sniffing_witness :
  let rt := answering (Returned (Backend.json_error 200 "File must be a PDF")) in
  result (perform rt (Compress report_pdf MEDIUM)) = Threw (Error "File must be a PDF").
Proof.
  intros rt.
  destruct (answer_sniffing rt (Compress report_pdf MEDIUM)
              (request_of rt (Compress report_pdf MEDIUM))) as [Hresolved _].
  { by vm_compute. }
  destruct (Hresolved (Backend.json_error 200 "File must be a PDF")) as [_ Hjson].
  { reflexivity. }
  destruct (Hjson "application/json" [("detail", JString "File must be a PDF")])
    as [Hdetail _]; [by vm_compute | reflexivity | by vm_compute |].
  apply Hdetail; [reflexivity | discriminate].
Defined.

Lemma merge_file_count_witness :
  let rt := answering (Returned ok_pdf) in
  run (merge rt [report_pdf])
  = (Threw (Error "At least two PDF files are required for merging"), [])
  /\ exists request,
      requests (merge rt [report_pdf; annex_pdf]) = [request]
      /\ url request = "/api/v1/pdf/merge".
Proof.
  intros rt. split.
  - apply (proj1 (merge_file_count rt [report_pdf])). simpl. lia.
  - apply (proj2 (merge_file_count rt [report_pdf; annex_pdf])). simpl. lia.
Defined.



(** C4, counterexample.  [bmp] is outside the supported set, and on a text file
    the error [export] throws is about the file type: its message does not name
    the format. *)
Lemma export_type_error_first :
  let rt := answering (Returned ok_pdf) in
  array_includes supportedFormats (toLowerCase "bmp") = false
  /\ run (export rt notes_txt "bmp")
     = (Threw (Error "Invalid file type. Please select a PDF file."), [])
  /\ includes "Invalid file type. Please select a PDF file." "bmp" = false.
Proof. by vm_compute. Qed.

Lemma export_unsupported_format_witness :
  let rt := answering (Returned ok_pdf) in
  requests (export rt report_pdf "BMP") = []
  /\ result (export rt report_pdf "BMP")
     = Threw (Error
         "Unsupported format: BMP. Supported formats are: xlsx, txt, html, png, jpg, jpeg")
  /\ run (export rt report_pdf "Bmp")
     = (Threw (Error
          "Unsupported format: Bmp. Supported formats are: xlsx, txt, html, png, jpg, jpeg"),
        []).
Proof.
  intros rt.
  destruct (export_unsupported_format rt report_pdf "BMP") as (Hreq & Hpdf & _).
  { reflexivity. }
  destruct Hpdf as [(message & Hres & -> & _) Hcase]; [reflexivity|].
  split; [exact Hreq|]. split; [exact Hres|].
  apply Hcase. reflexivity.
Defined.

Lemma convert_pdf_rejected_witness :
  let rt := answering (Returned ok_pdf) in
  run (convert rt report_pdf)
  = (Threw (Error "File is already a PDF. Please select a different format to convert."),
     [])
  /\ exists request,
      requests (convert rt letter_docx) = [request]
      /\ url request = "/api/v1/pdf/convert"
      /\ data request = [("file", FormFile letter_docx)].
Proof.
  intros rt. split.
  - apply (proj1 (convert_pdf_rejected rt report_pdf)). reflexivity.
  - apply (proj2 (convert_pdf_rejected rt letter_docx)). simpl. discriminate.
Defined.

Lemma compress_level_clamped_witness :
  let rt := answering (Returned ok_pdf) in
  requests (compress rt report_pdf 5) = [request_of rt (Compress report_pdf 5)]
  /\ String_of_number 3 = "3"
  /\ Backend.mapped_level 5 = 2
  /\ (exists headers,
        Backend.compress_pdf shrinking (Backend.upload_of report_pdf) 5
        = Backend.StreamingResponse "%PDF-1.7 report /level 2" "application/pdf" headers)
  /\ forall level',
       Backend.compress_pdf shrinking (Backend.upload_of notes_txt) level'
       = Backend.HTTPException 400 "File must be a PDF".
Proof.
  intros rt.
  destruct (compress_level_clamped rt shrinking report_pdf 5 eq_refl)
    as (Hclient & _ & _ & _ & _ & Hmapped & _ & _ & Hanswer).
  destruct (compress_level_clamped rt shrinking report_pdf 3 eq_refl)
    as (_ & Hnumeral & _).
  destruct (compress_level_clamped rt shrinking notes_txt 5 eq_refl)
    as (_ & _ & _ & _ & _ & _ & _ & Hraised & _).
  split; [apply Hclient; reflexivity|].
  split; [apply Hnumeral; lia|].
  split; [apply Hmapped; lia|].
  split; [apply Hanswer; reflexivity|].
  destruct (Hraised 400 "File must be a PDF" eq_refl)
    as [(_ & _ & _ & Hany) | (Hcode & _)]; [exact Hany | discriminate Hcode].
Defined.

(** C7, counterexample.  The level 5 is outside 1 to 4.  The client sends it as
    the text [5]; the handler gives the compression tool the level 2 and answers
    with the compressed document, status 200; [compress] returns that
    document: nothing is rejected. *)
Lemma level_five_compressed :
  let answer := Backend.compress_pdf shrinking (Backend.upload_of report_pdf) 5 in
  let rt := answering (Returned (Backend.as_response answer)) in
  (1 <=? 5) && (5 <=? 4) = false
  /\ data (request_of rt (Compress report_pdf 5))
     = [("file", FormFile report_pdf); ("compression_level", FormString "5")]
  /\ answer
     = Backend.StreamingResponse "%PDF-1.7 report /level 2" "application/pdf"
         [("Content-Disposition", "attachment; filename=compressed_report.pdf");
          ("Access-Control-Expose-Headers", "Content-Disposition");
          ("Access-Control-Allow-Origin", "*");
          ("Access-Control-Allow-Credentials", "true")]
  /\ status (Backend.as_response answer) = 200
  /\ run (compress rt report_pdf 5)
     = (Returned {| blob_type := "application/pdf"; text := "%PDF-1.7 report /level 2" |},
        [request_of rt (Compress report_pdf 5)]).
Proof. by vm_compute. Qed.

(** A failure of the compression tool is answered with 500, at any level. *)
Example tool_failure_answered :
  Backend.compress_pdf unreadable (Backend.upload_of report_pdf) 9
  = Backend.HTTPException 500 "Error compressing PDF: cannot read the document"
  /\ Backend.mapped_level 9 = 3
  /\ Backend.mapped_level 0 = 1
  /\ Backend.mapped_level (-7) = 1.
Proof. by vm_compute. Qed.

(** The handler answers 400 with a detail (the file is declared a PDF, its name
    has no [.pdf] suffix), the HTTP client rejects: the error [compress] throws
    carries the fallback message, not the detail. *)
Example rejected_detail_replaced :
  let answer := Backend.compress_pdf shrinking (Backend.upload_of scan) 2 in
  let rt := answering (Threw (AxiosError "Request failed with status code 400"
                                (Some (Backend.as_response answer)))) in
  answer = Backend.HTTPException 400 "File must be a PDF"
  /\ run (compress rt scan 2)
     = (Threw (Error "Failed to compress PDF"), [request_of rt (Compress scan 2)]).
Proof. by vm_compute. Qed.

Lemma compress_non_pdf_witness :
  exists message,
    run (compress (answering (Returned ok_pdf)) notes_txt MEDIUM)
    = (Threw (Error message), [])
    /\ includes message "PDF" = true.
Proof.
  apply (compress_non_pdf (answering (Returned ok_pdf)) notes_txt MEDIUM). reflexivity.
Defined.

(** C9, counterexample.  [export] with [docx] on a word-processor file: the error
    is the invalid-file-type one, not an unsupported-format one. *)
Lemma export_docx_on_docx_file :
  let rt := answering (Returned ok_pdf) in
  run (export rt letter_docx "docx")
  = (Threw (Error "Invalid file type. Please select a PDF file."), [])
  /\ includes "Invalid file type. Please select a PDF file." "Unsupported format" = false.
Proof. by vm_compute. Qed.

Lemma export_docx_witness :
  let rt := answering (Returned ok_pdf) in
  requests (export rt report_pdf "docx") = []
  /\ result (export rt report_pdf "docx")
     = Threw (Error
         "Unsupported format: docx. Supported formats are: xlsx, txt, html, png, jpg, jpeg").
Proof.
  intros rt.
  destruct (export_docx rt report_pdf) as (_ & _ & _ & _ & _ & Hreq & Hpdf & _).
  split; [exact Hreq | apply Hpdf; reflexivity].
Defined.

End PdfServiceProofs.

(** * Properties of the Dashboard's file reordering *)

Module DashboardProofs.
Import Dashboard.

Section Reorder.
Context {File : Type}.
Implicit Types (arr prevFiles : list (option File)) (x : option File).

Lemma splice_remove_one arr (i : nat) x :
  arr !! i = Some x ->
  splice arr (Z.of_nat i) 1 [] = ([x], (take i arr ++ drop (S i) arr)%list).
Proof.
  intros Hi. pose proof (lookup_lt_Some _ _ _ Hi) as Hlt.
  unfold splice.
  destruct (Z.ltb_spec (Z.of_nat i) 0); [lia|].
  rewrite Z.min_l by lia. rewrite Z.max_l by lia. rewrite Z.min_l by lia.
  rewrite Nat2Z.id. change (Z.to_nat 1) with 1%nat.
  f_equal.
  - rewrite <- (take_drop_middle arr i x Hi) at 1.
    rewrite drop_app_length'; [done|]. rewrite length_take. lia.
  - simpl. by rewrite Nat.add_1_r.
Qed.

Lemma splice_insert_one arr (i : nat) x :
  (i <= length arr)%nat ->
  splice arr (Z.of_nat i) 0 [x] = ([], (take i arr ++ x :: drop i arr)%list).
Proof.
  intros Hi. unfold splice.
  destruct (Z.ltb_spec (Z.of_nat i) 0); [lia|].
  rewrite Z.min_l by lia. rewrite Z.max_r by lia. rewrite Z.min_l by lia.
  rewrite Nat2Z.id. change (Z.to_nat 0) with 0%nat.
  by rewrite Nat.add_0_r.
Qed.

(** What [moveFile] computes on indices inside the list. *)
Lemma moveFile_in_range prevFiles (i j : nat) x :
  prevFiles !! i = Some x ->
  (j < length prevFiles)%nat ->
  moveFile (Z.of_nat i) (Z.of_nat j) prevFiles
  = (take j (delete i prevFiles) ++ x :: drop j (delete i prevFiles))%list.
Proof.
  intros Hi Hj. pose proof (lookup_lt_Some _ _ _ Hi) as Hlt.
  unfold moveFile. rewrite (splice_remove_one _ _ x Hi).
  rewrite <- delete_take_drop.
  rewrite splice_insert_one; [done|].
  rewrite length_delete by eauto. lia.
Qed.

(** C10.  For indices inside the list, [moveFile] yields a list of the same
    length, with the same elements counted with multiplicity, in which the
    element that was at [fromIndex] stands at [toIndex]. *)
Theorem moveFile_reorders prevFiles (fromIndex toIndex : Z) :
  0 <= fromIndex < Z.of_nat (length prevFiles) ->
  0 <= toIndex < Z.of_nat (length prevFiles) ->
  let newFiles := moveFile fromIndex toIndex prevFiles in
  length newFiles = length prevFiles
  /\ newFiles ≡ₚ prevFiles
  /\ newFiles !! Z.to_nat toIndex = prevFiles !! Z.to_nat fromIndex
  /\ is_Some (prevFiles !! Z.to_nat fromIndex).
Proof.
  intros Hfrom Hto newFiles. subst newFiles.
  destruct (lookup_lt_is_Some_2 prevFiles (Z.to_nat fromIndex)) as [x Hx]; [lia|].
  rewrite <- (Z2Nat.id fromIndex), <- (Z2Nat.id toIndex) by lia.
  rewrite (moveFile_in_range _ _ _ x Hx) by lia.
  rewrite !Nat2Z.id.
  set (i := Z.to_nat fromIndex) in *. set (j := Z.to_nat toIndex) in *.
  assert (length (delete i prevFiles) = pred (length prevFiles)) as Hlen.
  { rewrite length_delete by eauto. lia. }
  assert (j <= length (delete i prevFiles))%nat as Hj by lia.
  assert (prevFiles ≡ₚ x :: delete i prevFiles) as Hperm.
  { by apply delete_Permutation. }
  repeat split.
  - rewrite length_app, length_take. simpl. rewrite length_drop. lia.
  - etrans; [|symmetry; exact Hperm].
    rewrite <- Permutation_middle. by rewrite take_drop.
  - rewrite Hx. rewrite lookup_app_r; rewrite length_take; [|lia].
    replace (j - j `min` length (delete i prevFiles))%nat with 0%nat by lia. done.
  - by exists x.
Qed.

End Reorder.

(** A move down and a move up on three files. *)
Example moveFile_down :
  moveFile 0 2 [Some "a"; Some "b"; Some "c"] = [Some "b"; Some "c"; Some "a"].
Proof. reflexivity. Qed.

Example moveFile_up :
  moveFile 2 1 [Some "a"; Some "b"; Some "c"] = [Some "a"; Some "c"; Some "b"].
Proof. reflexivity. Qed.

(** Outside the list the array grows: nothing is removed and [undefined] is
    inserted. *)
Example moveFile_from_outside :
  moveFile 5 0 [Some "a"; Some "b"] = [None; Some "a"; Some "b"].
Proof. reflexivity. Qed.

Lemma moveFile_reorders_witness :
  let prevFiles := [Some "a.pdf"; Some "b.pdf"; Some "c.pdf"] in
  let newFiles := moveFile 0 2 prevFiles in
  length newFiles = 3%nat
  /\ newFiles ≡ₚ prevFiles
  /\ newFiles !! 2%nat = Some (Some "a.pdf").
Proof.
  intros prevFiles newFiles.
  destruct (moveFile_reorders prevFiles 0 2) as (Hlen & Hperm & Hat & _);
    [simpl; lia | simpl; lia |].
  split; [exact Hlen|]. split; [exact Hperm|]. exact Hat.
Defined.

End DashboardProofs.

(** * Properties of the session service *)

Module AuthServiceProofs.
Import Js AuthService.

Section Session.
Variable br : Browser.

(** The world after a clock reading, after [clearSession], after a successful
    [setSession]. *)
Local Abbreviation ticked w :=
  {| localStorage := localStorage w;
     Authorization := Authorization w;
     clock_reads := S (clock_reads w) |}.

Local Abbreviation cleared w :=
  {| localStorage := delete (TOKEN_KEY br) (localStorage w);
     Authorization := None;
     clock_reads := clock_reads w |}.

Local Abbreviation entry_at w t u :=
  {| token := t; expiryTime := clock br (clock_reads w) + SESSION_DURATION br; user := u |}.

Local Abbreviation stored w t u :=
  {| localStorage :=
       <[TOKEN_KEY br := JSON_stringify_session br (entry_at w t u)]> (localStorage w);
     Authorization := Some ("Bearer " ++ t);
     clock_reads := S (clock_reads w) |}.

Lemma clearSession_eq w : clearSession br w = (Returned tt, cleared w).
Proof. reflexivity. Qed.

Lemma setSession_eq t u w :
  setSession br t u w
  = if setItem_accepts br (TOKEN_KEY br) (JSON_stringify_session br (entry_at w t u))
    then (Returned tt, stored w t u)
    else (Threw "QuotaExceededError", ticked w).
Proof.
  unfold setSession, try_catch, bind, Date_getTime, localStorage_setItem. simpl.
  by destruct (setItem_accepts br _ _).
Qed.

(** [getSession], case by case: its result and the world it leaves. *)
Lemma getSession_eq w :
  getSession br w
  = match localStorage w !! TOKEN_KEY br with
    | None => (Returned None, w)
    | Some sessionText =>
        if String.eqb sessionText "" then (Returned None, w)
        else match JSON_parse_session br sessionText with
             | inr _ => (Returned None, cleared w)
             | inl parsed =>
                 if clock br (clock_reads w) >? expiryTime parsed
                 then (Returned None, cleared (ticked w))
                 else if setItem_accepts br (TOKEN_KEY br)
                           (JSON_stringify_session br
                              (entry_at (ticked w) (token parsed) (user parsed)))
                      then (Returned (Some (token parsed, user parsed)),
                            stored (ticked w) (token parsed) (user parsed))
                      else (Returned None, cleared (ticked (ticked w)))
             end
    end.
Proof.
  unfold getSession, try_catch, bind, localStorage_getItem. simpl.
  destruct (localStorage w !! TOKEN_KEY br) as [sessionText|]; [|done].
  destruct (String.eqb sessionText ""); [done|].
  destruct (JSON_parse_session br sessionText) as [parsed|err]; [|done].
  simpl. destruct (clock br (clock_reads w) >? expiryTime parsed); [done|].
  rewrite setSession_eq. simpl.
  by destruct (setItem_accepts br _ _).
Qed.

Lemma login_eq username password w :
  login br username password w
  = match post_token br username password with
    | inr error => (Threw error, w)
    | inl access_token =>
        match get_me br access_token with
        | inr error => (Threw error, cleared w)
        | inl u =>
            if setItem_accepts br (TOKEN_KEY br)
                 (JSON_stringify_session br (entry_at w access_token u))
            then (Returned (access_token, u), stored w access_token u)
            else (Threw "QuotaExceededError", ticked w)
        end
    end.
Proof.
  unfold login, try_catch, bind, validateToken, try_catch.
  destruct (post_token br username password) as [access_token|err]; [|done].
  destruct (get_me br access_token) as [u|err]; [|done].
  simpl. rewrite setSession_eq.
  by destruct (setItem_accepts br _ _).
Qed.

(** C6.  The duration is the configured number of seconds, 86400 when none is
    configured, in milliseconds.  A login that the server accepts and whose write
    the storage accepts stores the entry with [expiryTime] equal to the clock
    reading taken for the write plus the duration.  A read of a stored entry that
    the clock has not passed returns the token and user of the entry and rewrites
    the entry with [expiryTime] equal to the next clock reading plus the duration;
    conversely every read that returns a session is such a read.  A read after
    [expiryTime] removes the entry and returns null. *)
Theorem session_lifecycle :
  SESSION_DURATION br = default 86400 (VITE_TOKEN_EXPIRY br) * 1000
  /\ (forall w username password access_token u,
        post_token br username password = inl access_token ->
        get_me br access_token = inl u ->
        setItem_accepts br (TOKEN_KEY br)
          (JSON_stringify_session br (entry_at w access_token u)) = true ->
        exists w',
          login br username password w = (Returned (access_token, u), w')
          /\ localStorage w' !! TOKEN_KEY br
             = Some (JSON_stringify_session br
                       {| token := access_token;
                          expiryTime := clock br (clock_reads w) + SESSION_DURATION br;
                          user := u |}))
  /\ (forall w sessionText entry,
        localStorage w !! TOKEN_KEY br = Some sessionText ->
        sessionText <> "" ->
        JSON_parse_session br sessionText = inl entry ->
        let now := clock br (clock_reads w) in
        let refreshed :=
          {| token := token entry;
             expiryTime := clock br (S (clock_reads w)) + SESSION_DURATION br;
             user := user entry |} in
        (now <= expiryTime entry ->
         setItem_accepts br (TOKEN_KEY br) (JSON_stringify_session br refreshed) = true ->
         exists w',
           getSession br w = (Returned (Some (token entry, user entry)), w')
           /\ localStorage w' !! TOKEN_KEY br = Some (JSON_stringify_session br refreshed))
        /\ (now > expiryTime entry ->
            exists w',
              getSession br w = (Returned None, w')
              /\ localStorage w' !! TOKEN_KEY br = None))
  /\ (forall w w' t u,
        getSession br w = (Returned (Some (t, u)), w') ->
        exists sessionText entry,
          localStorage w !! TOKEN_KEY br = Some sessionText
          /\ JSON_parse_session br sessionText = inl entry
          /\ t = token entry /\ u = user entry
          /\ clock br (clock_reads w) <= expiryTime entry
          /\ localStorage w' !! TOKEN_KEY br
             = Some (JSON_stringify_session br
                       {| token := t;
                          expiryTime := clock br (S (clock_reads w)) + SESSION_DURATION br;
                          user := u |})).
Proof.
  split; [by unfold SESSION_DURATION; destruct (VITE_TOKEN_EXPIRY br)|].
  split; [|split].
  - intros w username password access_token u Hpost Hme Hacc.
    rewrite login_eq, Hpost, Hme, Hacc.
    eexists. split; [reflexivity|]. simpl. by rewrite lookup_insert_eq.
  - intros w sessionText entry Hstored Hne Hparse now refreshed. subst now refreshed.
    rewrite getSession_eq, Hstored, Hparse.
    destruct (String.eqb_spec sessionText ""); [done|].
    split.
    + intros Hnow Hacc.
      destruct (Z.gtb_spec (clock br (clock_reads w)) (expiryTime entry)); [lia|].
      simpl in *. rewrite Hacc.
      eexists. split; [reflexivity|]. simpl. by rewrite lookup_insert_eq.
    + intros Hnow.
      destruct (Z.gtb_spec (clock br (clock_reads w)) (expiryTime entry)); [|lia].
      eexists. split; [reflexivity|]. simpl. by rewrite lookup_delete_eq.
  - intros w w' t u. rewrite getSession_eq.
    destruct (localStorage w !! TOKEN_KEY br) as [sessionText|]; [|done].
    destruct (String.eqb sessionText ""); [done|].
    destruct (JSON_parse_session br sessionText) as [entry|err] eqn:Hparse; [|done].
    destruct (Z.gtb_spec (clock br (clock_reads w)) (expiryTime entry)); [done|].
    destruct (setItem_accepts br _ _); [|done].
    intros [= <- <- <-].
    exists sessionText, entry. repeat split; try done; try lia.
    simpl. by rewrite lookup_insert_eq.
Qed.

(** [logout] removes the entry. *)
Lemma logout_removes w :
  exists w',
    logout br w = (Returned tt, w') /\ localStorage w' !! TOKEN_KEY br = None.
Proof. eexists. split; [reflexivity|]. simpl. by rewrite lookup_delete_eq. Qed.

End Session.

Import AuthSample.

(** Login, then a read one hour later, then a read after the entry has expired. *)
Lemma session_lifecycle_witness :
  (exists w',
      login laptop "alice" "secret" anonymous = (Returned ("tok-123", alice), w')
      /\ localStorage w' !! TOKEN_KEY laptop = Some (stringify login_entry))
  /\ (exists w',
        getSession laptop logged_in = (Returned (Some ("tok-123", alice)), w')
        /\ localStorage w' !! TOKEN_KEY laptop = Some (stringify refreshed_entry))
  /\ (exists w',
        getSession laptop much_later = (Returned None, w')
        /\ localStorage w' !! TOKEN_KEY laptop = None).
Proof.
  destruct (session_lifecycle laptop) as (_ & Hlogin & Hread & _).
  split; [|split].
  - apply (Hlogin anonymous "alice" "secret" "tok-123" alice); reflexivity.
  - apply (proj1 (Hread logged_in (stringify login_entry) login_entry
                    eq_refl ltac:(discriminate) eq_refl)).
    + vm_compute. discriminate.
    + reflexivity.
  - apply (proj2 (Hread much_later (stringify login_entry) login_entry
                    eq_refl ltac:(discriminate) eq_refl)).
    reflexivity.
Defined.

End AuthServiceProofs.

(** * Further properties of the file lists of the Dashboard and of the merge dialog *)

Module FileListProofs.
Import Dashboard.

Section Lists.
Context {File : Type}.
Implicit Types (l prevFiles : list (option File)) (x y : option File).

(** Inserting at a position and deleting there again. *)
Lemma delete_inserted l (j : nat) x :
  (j <= length l)%nat ->
  (take j l ++ x :: drop j l)%list !! j = Some x
  /\ delete j (take j l ++ x :: drop j l)%list = l.
Proof.
  revert j. induction l as [|a l IH]; intros [|j] Hj; simpl in *; try lia; try done.
  destruct (IH j) as [Hat Hdel]; [lia|]. split; [done | by f_equal].
Qed.

Lemma insert_deleted l (i : nat) x :
  l !! i = Some x ->
  (take i (delete i l) ++ x :: drop i (delete i l))%list = l.
Proof.
  revert i. induction l as [|a l IH]; intros [|i] Hi; simplify_eq/=; [done|].
  f_equal. by apply IH.
Qed.

(** X1.  Moving a file from [fromIndex] to [toIndex] and then back from
    [toIndex] to [fromIndex] restores the list, for indices inside the list. *)
Theorem moveFile_undo prevFiles (fromIndex toIndex : Z) :
  0 <= fromIndex < Z.of_nat (length prevFiles) ->
  0 <= toIndex < Z.of_nat (length prevFiles) ->
  moveFile toIndex fromIndex (moveFile fromIndex toIndex prevFiles) = prevFiles.
Proof.
  intros Hfrom Hto.
  destruct (lookup_lt_is_Some_2 prevFiles (Z.to_nat fromIndex)) as [x Hx]; [lia|].
  rewrite <- (Z2Nat.id fromIndex), <- (Z2Nat.id toIndex) by lia.
  set (i := Z.to_nat fromIndex) in *. set (j := Z.to_nat toIndex) in *.
  rewrite (DashboardProofs.moveFile_in_range _ i j x Hx) by lia.
  pose proof (lookup_lt_Some _ _ _ Hx) as Hlt.
  assert (length (delete i prevFiles) = pred (length prevFiles)) as Hlen.
  { rewrite length_delete by eauto. lia. }
  assert (j <= length (delete i prevFiles))%nat as Hj by lia.
  destruct (delete_inserted (delete i prevFiles) j x Hj) as [Hat Hdel].
  rewrite (DashboardProofs.moveFile_in_range _ j i x Hat).
  - rewrite Hdel. by apply insert_deleted.
  - rewrite length_app, length_take. simpl. rewrite length_drop. lia.
Qed.

(** X2.  A move inside the list leaves the other files in their order: without
    the moved entry, the list after the move is the list before it. *)
Theorem moveFile_keeps_others prevFiles (fromIndex toIndex : Z) :
  0 <= fromIndex < Z.of_nat (length prevFiles) ->
  0 <= toIndex < Z.of_nat (length prevFiles) ->
  delete (Z.to_nat toIndex) (moveFile fromIndex toIndex prevFiles)
  = delete (Z.to_nat fromIndex) prevFiles.
Proof.
  intros Hfrom Hto.
  destruct (lookup_lt_is_Some_2 prevFiles (Z.to_nat fromIndex)) as [x Hx]; [lia|].
  replace (moveFile fromIndex toIndex prevFiles)
    with (moveFile (Z.of_nat (Z.to_nat fromIndex)) (Z.of_nat (Z.to_nat toIndex)) prevFiles)
    by (by rewrite !Z2Nat.id by lia).
  rewrite (DashboardProofs.moveFile_in_range _ _ _ x Hx) by lia.
  apply delete_inserted. rewrite length_delete by eauto. lia.
Qed.

(** Putting an entry at, or right after, the end of a prefix; deleting there. *)
Lemma put_at_length (before after : list (option File)) z w :
  (take (length before) (before ++ w :: after)
     ++ z :: drop (length before) (before ++ w :: after))%list
  = (before ++ z :: w :: after)%list.
Proof. induction before; simpl; [done | by f_equal]. Qed.

Lemma put_after_length (before after : list (option File)) z w :
  (take (S (length before)) (before ++ w :: after)
     ++ z :: drop (S (length before)) (before ++ w :: after))%list
  = (before ++ w :: z :: after)%list.
Proof. induction before; simpl; [done | by f_equal]. Qed.

Lemma delete_at_length (before rest : list (option File)) x :
  delete (length before) (before ++ x :: rest)%list = (before ++ rest)%list.
Proof. induction before; simpl; [done | by f_equal]. Qed.

Lemma delete_after_length (before rest : list (option File)) x y :
  delete (S (length before)) (before ++ x :: y :: rest)%list = (before ++ x :: rest)%list.
Proof. induction before; simpl; [done | by f_equal]. Qed.

(** X3.  The two arrow buttons call [moveFile index (index + 1)] and
    [moveFile index (index - 1)]: either call exchanges the two neighbours and
    leaves the rest of the list in place. *)
Theorem moveFile_neighbours (before after : list (option File)) x y :
  let index := Z.of_nat (length before) in
  moveFile index (index + 1) (before ++ x :: y :: after) = (before ++ y :: x :: after)%list
  /\ moveFile (index + 1) (index + 1 - 1) (before ++ x :: y :: after)
     = (before ++ y :: x :: after)%list.
Proof.
  intros index. subst index.
  assert ((before ++ x :: y :: after)%list !! length before = Some x) as Hx.
  { by apply list_lookup_middle. }
  assert ((before ++ x :: y :: after)%list !! S (length before) = Some y) as Hy.
  { rewrite lookup_app_r by lia.
    by replace (S (length before) - length before)%nat with 1%nat by lia. }
  assert (length (before ++ x :: y :: after) = S (S (length before + length after)))
    as Hlen.
  { rewrite length_app. simpl. lia. }
  split.
  - replace (Z.of_nat (length before) + 1) with (Z.of_nat (S (length before))) by lia.
    rewrite (DashboardProofs.moveFile_in_range _ _ _ x Hx) by lia.
    rewrite delete_at_length. apply put_after_length.
  - replace (Z.of_nat (length before) + 1 - 1) with (Z.of_nat (length before)) by lia.
    replace (Z.of_nat (length before) + 1) with (Z.of_nat (S (length before))) by lia.
    rewrite (DashboardProofs.moveFile_in_range _ _ _ y Hy) by lia.
    rewrite delete_after_length. apply put_at_length.
Qed.

(** What [splice] inserts with a delete count of 0. *)
Lemma splice_insert_any l (start : Z) x :
  exists s : nat,
    (s <= length l)%nat
    /\ splice l start 0 [x] = ([], (take s l ++ x :: drop s l)%list).
Proof.
  unfold splice.
  set (len := Z.of_nat (length l)).
  set (actualStart := if start <? 0 then Z.max (len + start) 0 else Z.min start len).
  assert (0 <= actualStart <= len) as Hs.
  { subst actualStart len. destruct (Z.ltb_spec start 0); lia. }
  exists (Z.to_nat actualStart). split; [lia|].
  rewrite Z.max_r by lia. rewrite Z.min_l by lia.
  change (Z.to_nat 0) with 0%nat. by rewrite Nat.add_0_r.
Qed.

(** X4.  With [fromIndex] at or beyond the end of the list nothing is removed and
    [undefined] is inserted: the list grows by one entry, wherever [toIndex]
    points. *)
Theorem moveFile_from_beyond prevFiles (fromIndex toIndex : Z) :
  Z.of_nat (length prevFiles) <= fromIndex ->
  length (moveFile fromIndex toIndex prevFiles) = S (length prevFiles)
  /\ None ∈ moveFile fromIndex toIndex prevFiles
  /\ moveFile fromIndex toIndex prevFiles ≡ₚ None :: prevFiles.
Proof.
  intros Hfrom. unfold moveFile.
  assert (splice prevFiles fromIndex 1 [] = ([], prevFiles)) as ->.
  { unfold splice.
    destruct (Z.ltb_spec fromIndex 0); [lia|].
    rewrite (Z.min_r fromIndex) by lia.
    rewrite Z.sub_diag. rewrite (Z.min_r _ 0) by lia.
    rewrite Nat2Z.id. change (Z.to_nat 0) with 0%nat.
    rewrite Nat.add_0_r. simpl. by rewrite take_drop. }
  destruct (splice_insert_any prevFiles toIndex None) as (s & Hs & ->).
  assert ((take s prevFiles ++ None :: drop s prevFiles)%list ≡ₚ None :: prevFiles) as Hperm.
  { rewrite <- Permutation_middle. by rewrite take_drop. }
  split; [|split].
  - by rewrite Hperm.
  - rewrite Hperm. by left.
  - exact Hperm.
Qed.

Lemma delete_beyond l (i : nat) : (length l <= i)%nat -> delete i l = l.
Proof.
  intros Hi. rewrite delete_take_drop, take_ge, drop_ge by lia. apply app_nil_r.
Qed.

(** [splice] with a delete count of 1 at a position that is not negative. *)
Lemma splice_delete l (index : Z) :
  0 <= index ->
  snd (splice l index 1 []) = delete (Z.to_nat index) l.
Proof.
  intros Hindex. unfold splice. simpl.
  destruct (Z.ltb_spec index 0); [lia|].
  destruct (Z.le_gt_cases (Z.of_nat (length l)) index) as [Hout | Hin].
  - rewrite Z.min_r by lia. rewrite Z.sub_diag.
    rewrite (Z.min_r _ 0) by lia. rewrite Nat2Z.id.
    change (Z.to_nat 0) with 0%nat. rewrite Nat.add_0_r, take_drop.
    symmetry. apply delete_beyond. lia.
  - rewrite Z.min_l by lia. rewrite Z.max_l by lia. rewrite Z.min_l by lia.
    change (Z.to_nat 1) with 1%nat. rewrite Nat.add_1_r.
    by rewrite delete_take_drop.
Qed.

End Lists.

(** X5.  Removing at an index inside the list of selected files drops that
    entry and keeps the others in order; an index at or beyond the end changes
    nothing; the current action is reset exactly when the list ends up empty, and
    the selected file and the messages are left alone. *)
Theorem handleRemoveFile_removes (index : Z) (s : State) :
  0 <= index ->
  let s' := handleRemoveFile index s in
  selectedFiles s' = delete (Z.to_nat index) (selectedFiles s)
  /\ (Z.of_nat (length (selectedFiles s)) <= index -> selectedFiles s' = selectedFiles s)
  /\ currentAction s' = (if decide (selectedFiles s' = []) then None else currentAction s)
  /\ selectedFile s' = selectedFile s /\ error s' = error s /\ success s' = success s.
Proof.
  intros Hindex s'. subst s'. unfold handleRemoveFile.
  pose proof (splice_delete (selectedFiles s) index Hindex) as Hdel.
  destruct (splice (selectedFiles s) index 1 []) as [removed newFiles].
  simpl in *. subst newFiles.
  split; [done|]. split.
  - intros Hout. apply delete_beyond. lia.
  - split; [|done].
    destruct (delete (Z.to_nat index) (selectedFiles s)); by case_decide.
Qed.

Lemma filter_from_delete {A} (index k : Z) (l : list A) :
  MergePDFDialog.filter_from (fun _ i => negb (i =? index)) k l
  = if decide (k <= index) then delete (Z.to_nat (index - k)) l else l.
Proof.
  revert k. induction l as [|x l IH]; intros k; simpl.
  - by case_decide.
  - rewrite IH. destruct (Z.eqb_spec k index) as [->|Hne]; simpl.
    + rewrite Z.sub_diag. simpl. repeat case_decide; try lia. done.
    + repeat case_decide; try lia; [|done].
      replace (Z.to_nat (index - k)) with (S (Z.to_nat (index - (k + 1)))) by lia.
      done.
Qed.

(** X6.  The merge dialog removes by filtering on the index: for an index that
    is not negative this gives the same list as the removal of the Dashboard
    (the entry dropped, or nothing changed beyond the end); for a negative index
    the dialog changes nothing. *)
Theorem dialog_remove_agrees {File} (index : Z) (files : list (option File)) :
  (0 <= index ->
   MergePDFDialog.handleRemoveFile index files = delete (Z.to_nat index) files
   /\ MergePDFDialog.handleRemoveFile index files = snd (splice files index 1 []))
  /\ (index < 0 -> MergePDFDialog.handleRemoveFile index files = files).
Proof.
  unfold MergePDFDialog.handleRemoveFile. rewrite filter_from_delete.
  split.
  - intros Hindex. rewrite splice_delete by done.
    case_decide; [|lia]. by rewrite Z.sub_0_r.
  - intros Hneg. case_decide; [lia|done].
Qed.

Import MoreSamples.

Lemma moveFile_undo_witness :
  moveFile 2 0 (moveFile 0 2 [Some "a.pdf"; Some "b.pdf"; Some "c.pdf"])
  = [Some "a.pdf"; Some "b.pdf"; Some "c.pdf"].
Proof. apply (moveFile_undo [Some "a.pdf"; Some "b.pdf"; Some "c.pdf"] 0 2); simpl; lia. Defined.

Lemma moveFile_keeps_others_witness :
  delete 2%nat (moveFile 0 2 [Some "a.pdf"; Some "b.pdf"; Some "c.pdf"])
  = [Some "b.pdf"; Some "c.pdf"].
Proof.
  apply (moveFile_keeps_others [Some "a.pdf"; Some "b.pdf"; Some "c.pdf"] 0 2); simpl; lia.
Defined.

Lemma moveFile_from_beyond_witness :
  length (moveFile 2 0 [Some "a.pdf"; Some "b.pdf"]) = 3%nat
  /\ None ∈ moveFile 2 0 [Some "a.pdf"; Some "b.pdf"]
  /\ moveFile 2 0 [Some "a.pdf"; Some "b.pdf"] ≡ₚ [None; Some "a.pdf"; Some "b.pdf"].
Proof. apply (moveFile_from_beyond [Some "a.pdf"; Some "b.pdf"] 2 0). simpl. lia. Defined.

Lemma handleRemoveFile_removes_witness :
  selectedFiles (handleRemoveFile 0 one_listed) = []
  /\ currentAction (handleRemoveFile 0 one_listed) = None
  /\ selectedFiles (handleRemoveFile 1 three_listed)
     = [Some Sample.report_pdf; Some Sample.report_pdf]
  /\ currentAction (handleRemoveFile 1 three_listed) = Some Action_merge
  /\ selectedFiles (handleRemoveFile 3 three_listed) = selectedFiles three_listed.
Proof.
  destruct (handleRemoveFile_removes 0 one_listed) as (H1 & _ & H2 & _); [lia|].
  destruct (handleRemoveFile_removes 1 three_listed) as (H3 & _ & H4 & _); [lia|].
  destruct (handleRemoveFile_removes 3 three_listed) as (_ & H5 & _); [lia|].
  split; [exact H1|]. split; [exact H2|]. split; [exact H3|]. split; [exact H4|].
  apply H5. simpl. lia.
Defined.

Lemma dialog_remove_agrees_witness :
  MergePDFDialog.handleRemoveFile 1 [Some "a.pdf"; Some "b.pdf"; Some "c.pdf"]
  = [Some "a.pdf"; Some "c.pdf"]
  /\ MergePDFDialog.handleRemoveFile (-1) [Some "a.pdf"; Some "b.pdf"; Some "c.pdf"]
     = [Some "a.pdf"; Some "b.pdf"; Some "c.pdf"].
Proof.
  split.
  - apply (proj1 (dialog_remove_agrees 1 [Some "a.pdf"; Some "b.pdf"; Some "c.pdf"])). lia.
  - apply (proj2 (dialog_remove_agrees (-1) [Some "a.pdf"; Some "b.pdf"; Some "c.pdf"])). lia.
Defined.

(** With a negative index the Dashboard counts from the end: the two removals
    differ there. *)
Example remove_negative_differs :
  snd (splice [Some "a.pdf"; Some "b.pdf"; Some "c.pdf"] (-1) 1 [])
  = [Some "a.pdf"; Some "b.pdf"].
Proof. reflexivity. Qed.

End FileListProofs.

(** * Properties of the viewer, the expanded matches and the convert drop zone *)

Module WidgetProofs.
Import Js.

(** X7.  Once the page count is [null] or not negative, [changePage] leaves the
    page number between 1 and [numPages || 1], whatever the offset and the page
    number before, and does not touch the page count. *)
Theorem changePage_in_range (offset : Z) (s : PDFViewer.State) :
  (forall n, PDFViewer.numPages s = Some n -> 0 <= n) ->
  let s' := PDFViewer.changePage offset s in
  1 <= PDFViewer.pageNumber s' <= PDFViewer.numPages_or_1 s'
  /\ PDFViewer.numPages s' = PDFViewer.numPages s.
Proof.
  intros Hn s'. subst s'. unfold PDFViewer.changePage, PDFViewer.numPages_or_1. simpl.
  destruct (PDFViewer.numPages s) as [n|]; [|split; [lia | done]].
  specialize (Hn n eq_refl). destruct (Z.eqb_spec n 0); (split; [lia | done]).
Qed.

(** X8.  With the page number in range, a click on a button that is enabled
    moves by exactly one page, and [changePage] with the offset of a button that
    is disabled changes nothing. *)
Theorem changePage_buttons (s : PDFViewer.State) :
  1 <= PDFViewer.pageNumber s <= PDFViewer.numPages_or_1 s ->
  PDFViewer.pageNumber (PDFViewer.changePage 1 s)
  = (if PDFViewer.next_disabled s then PDFViewer.pageNumber s
     else PDFViewer.pageNumber s + 1)
  /\ PDFViewer.pageNumber (PDFViewer.changePage (-1) s)
     = (if PDFViewer.previous_disabled s then PDFViewer.pageNumber s
        else PDFViewer.pageNumber s - 1).
Proof.
  intros Hrange.
  unfold PDFViewer.changePage, PDFViewer.next_disabled, PDFViewer.previous_disabled. simpl.
  split.
  - destruct (Z.leb_spec (PDFViewer.numPages_or_1 s) (PDFViewer.pageNumber s)); lia.
  - destruct (Z.leb_spec (PDFViewer.pageNumber s) 1); lia.
Qed.

(** X9.  A click on a match toggles it: afterwards the index is expanded exactly
    when it was not before, every other index is as before, and a list without
    duplicates stays without duplicates. *)
Theorem handleExpandClick_toggles (index : Z) (prev : list Z) :
  (forall i,
      i ∈ PlagiarismResults.handleExpandClick index prev
      <-> (if decide (i = index) then index ∉ prev else i ∈ prev))
  /\ (NoDup prev -> NoDup (PlagiarismResults.handleExpandClick index prev)).
Proof.
  unfold PlagiarismResults.handleExpandClick.
  destruct (existsb (Z.eqb index) prev) eqn:Hex.
  - apply existsb_exists in Hex as (j & Hj & Hjeq).
    apply Z.eqb_eq in Hjeq. subst j. apply list_elem_of_In in Hj.
    split.
    + intros i. rewrite list_elem_of_In, filter_In, <- list_elem_of_In.
      case_decide as Hi.
      * subst i. rewrite Z.eqb_refl. simpl. split; [by intros [_ ?] | done].
      * destruct (Z.eqb_spec i index); [done|]. simpl. tauto.
    + intros Hnd. apply NoDup_ListNoDup. apply List.NoDup_filter.
      by apply NoDup_ListNoDup.
  - assert (index ∉ prev) as Hnot.
    { intros Hin%list_elem_of_In.
      assert (existsb (Z.eqb index) prev = true) as Ht.
      { apply existsb_exists. exists index. split; [done | apply Z.eqb_refl]. }
      congruence. }
    split.
    + intros i. rewrite elem_of_app, list_elem_of_singleton.
      case_decide as Hi; [subst i; tauto|]. tauto.
    + intros Hnd. apply NoDup_app. split; [done|]. split.
      * intros x Hx ->%list_elem_of_singleton. done.
      * apply NoDup_singleton.
Qed.

Section ConvertDrop.
Context {EditOperation : Type} (rt : PdfService.Runtime EditOperation).

(** X10.  A file that the convert drop zone selects is never typed
    [application/pdf], whatever its name, so [convert] on it issues its request;
    the drop also sets the action to convert. *)
Theorem convert_drop_then_convert (acceptedFiles : list PdfService.File)
    (s : Dashboard.State) (file : PdfService.File) :
  Dashboard.selectedFile (Dashboard.onConvertDrop acceptedFiles s) = Some file ->
  Dashboard.selectedFile s <> Some file ->
  PdfService.type file <> "application/pdf"
  /\ Dashboard.currentAction (Dashboard.onConvertDrop acceptedFiles s)
     = Some Dashboard.Action_convert
  /\ PdfService.requests (PdfService.convert rt file)
     = [PdfService.request_of rt (PdfService.Convert file)].
Proof.
  intros Hsel Hnew.
  assert (PdfService.type file <> "application/pdf"
          /\ Dashboard.currentAction (Dashboard.onConvertDrop acceptedFiles s)
             = Some Dashboard.Action_convert) as [Htype Hact].
  { unfold Dashboard.onConvertDrop in *.
    destruct acceptedFiles as [|f rest]; [done|].
    destruct (String.eqb_spec (PdfService.type f) "application/pdf") as [Hpdf|Hpdf];
      [done|].
    destruct (_ || _ || _ || _); [by simplify_eq/=|].
    destruct (Dashboard.SUPPORTED_FORMATS_has _); [by simplify_eq/=|done]. }
  split; [done|]. split; [done|].
  unfold PdfService.requests, PdfService.run, PdfService.convert.
  destruct (String.eqb_spec (PdfService.type file) "application/pdf"); [done|].
  exact (PdfServiceProofs.exchange_log rt _ _ _ _ []).
Qed.

End ConvertDrop.

Import MoreSamples.

Lemma changePage_in_range_witness :
  let s := PDFViewer.onDocumentLoadSuccess 3 PDFViewer.initial in
  1 <= PDFViewer.pageNumber (PDFViewer.changePage 7 s) <= 3
  /\ PDFViewer.numPages (PDFViewer.changePage 7 s) = Some 3.
Proof.
  intros s. apply (changePage_in_range 7 s). intros n Hn. vm_compute in Hn.
  injection Hn as <-. lia.
Defined.

Lemma changePage_buttons_witness :
  let s := PDFViewer.onDocumentLoadSuccess 3 PDFViewer.initial in
  PDFViewer.pageNumber (PDFViewer.changePage 1 s) = 2
  /\ PDFViewer.pageNumber (PDFViewer.changePage (-1) s) = 1.
Proof. intros s. apply (changePage_buttons s). vm_compute. split; discriminate. Defined.

Lemma handleExpandClick_toggles_witness :
  NoDup (PlagiarismResults.handleExpandClick 1 [0; 1; 2])
  /\ NoDup (PlagiarismResults.handleExpandClick 3 [0; 1; 2]).
Proof.
  split.
  - apply (proj2 (handleExpandClick_toggles 1 [0; 1; 2])). by apply (bool_decide_unpack _).
  - apply (proj2 (handleExpandClick_toggles 3 [0; 1; 2])). by apply (bool_decide_unpack _).
Defined.

Lemma convert_drop_then_convert_witness :
  let rt := Sample.answering (Returned Sample.ok_pdf) in
  PdfService.type page_html <> "application/pdf"
  /\ Dashboard.currentAction (Dashboard.onConvertDrop [page_html] nothing_selected)
     = Some Dashboard.Action_convert
  /\ PdfService.requests (PdfService.convert rt page_html)
     = [PdfService.request_of rt (PdfService.Convert page_html)].
Proof.
  intros rt.
  apply (convert_drop_then_convert rt [page_html] nothing_selected page_html);
    [reflexivity | discriminate].
Defined.

End WidgetProofs.

(** * Further properties of pdfService.ts *)

Module ServiceProofs.
Import Js PdfService.

Section Operations.
Context {EditOperation : Type} (rt : Runtime EditOperation).

(** X11.  An operation never issues more than one request, and the request it
    issues is the one built from its arguments: nothing is retried and nothing
    else is called. *)
Theorem at_most_one_request (op : Operation EditOperation) :
  requests (perform rt op) = [] \/ requests (perform rt op) = [request_of rt op].
Proof.
  destruct (PdfServiceProofs.perform_shape rt op) as [[m Hm] | Hex].
  - left. unfold requests. by rewrite Hm.
  - right. unfold requests, run. rewrite Hex, PdfServiceProofs.exchange_log.
    by destruct (request_of rt op).
Qed.

Lemma fallback_message_nonempty (op : Operation EditOperation) : fallback_message op <> "".
Proof. by destruct op. Qed.

Lemma on_error_message fb e log :
  fb <> "" ->
  exists message, fst (on_error rt fb e log) = Threw (Error message) /\ message <> "".
Proof.
  intros Hfb. destruct e as [m | m [r|]].
  - simpl. eexists. split; [done|]. by destruct (String.eqb_spec m "").
  - rewrite PdfServiceProofs.on_error_with_response. by eexists.
  - simpl. eexists. split; [done|]. by destruct (String.eqb_spec m "").
Qed.

Lemma exchange_outcome fb u formData c log :
  fb <> "" ->
  (exists b, fst (exchange rt fb u formData c log) = Returned b)
  \/ (exists message,
        fst (exchange rt fb u formData c log) = Threw (Error message) /\ message <> "").
Proof.
  intros Hfb. unfold exchange, try_catch, bind, axiosInstance_post.
  set (request := {| url := u; data := formData; config := c |}).
  destruct (post rt request) as [r|e].
  - unfold check_response. destruct (is_json _).
    + right.
      destruct (PdfServiceProofs.throw_detail_throws rt fb (response_data r)
                  (log ++ [request])%list) as [m Hm].
      destruct (throw_detail rt fb (response_data r) _) as [o log'].
      simpl in Hm. subst o. by apply on_error_message.
    + left. by eexists.
  - right. by apply on_error_message.
Qed.

(** X12.  Whatever the server and the HTTP client do, an operation either
    returns a blob or throws a plain [Error] whose message is not empty: the
    rejection of the HTTP client, with its status and response, never reaches
    the caller. *)
Theorem only_plain_errors (op : Operation EditOperation) :
  (exists b, result (perform rt op) = Returned b)
  \/ (exists message, result (perform rt op) = Threw (Error message) /\ message <> "").
Proof.
  destruct op as [file level | files | file operations | file | file format];
    unfold result, run; simpl.
  - unfold compress. destruct (includes (type file) "pdf"); simpl.
    + by apply exchange_outcome.
    + right. by eexists.
  - unfold merge. destruct (Z.of_nat (length files) <? 2).
    + right. by eexists.
    + by apply exchange_outcome.
  - by apply exchange_outcome.
  - unfold convert. destruct (String.eqb (type file) "application/pdf").
    + right. by eexists.
    + by apply exchange_outcome.
  - unfold export. destruct (includes (type file) "pdf"); cbn [negb].
    + destruct (array_includes supportedFormats (toLowerCase format)); cbn [negb].
      * by apply exchange_outcome.
      * right. eexists. split; [done|]. discriminate.
    + right. by eexists.
Qed.

(** X13.  When the HTTP client rejects the request of an operation with an
    error that carries the server's response, the operation throws its fallback
    message, whatever the status and the body of that response: a [detail] sent
    with a 4xx or 5xx answer is not shown. *)
Theorem rejection_with_response (op : Operation EditOperation) (request : Request)
    (message : string) (response : Response) :
  requests (perform rt op) = [request] ->
  post rt request = Threw (AxiosError message (Some response)) ->
  result (perform rt op) = Threw (Error (fallback_message op)).
Proof.
  intros Hreq Hpost.
  destruct (PdfServiceProofs.perform_requests rt op request Hreq) as [-> Hex].
  unfold result, run. rewrite Hex.
  apply (PdfServiceProofs.exchange_rejected_with_response rt _ _ _ _ _ message response).
  by destruct (request_of rt op).
Qed.

(** X14.  When the request fails without a response (the network is down, the
    request was aborted), the operation throws an error with the message of that
    failure, and with its fallback message if the failure has none. *)
Theorem rejection_without_response (op : Operation EditOperation) (request : Request)
    (message : string) :
  requests (perform rt op) = [request] ->
  post rt request = Threw (AxiosError message None)
  \/ post rt request = Threw (Error message) ->
  result (perform rt op)
  = Threw (Error (if String.eqb message "" then fallback_message op else message)).
Proof.
  intros Hreq Hpost.
  destruct (PdfServiceProofs.perform_requests rt op request Hreq) as [-> Hex].
  unfold result, run. rewrite Hex.
  unfold exchange, try_catch, bind, axiosInstance_post.
  destruct (request_of rt op) as [u d c]. simpl.
  by destruct Hpost as [-> | ->].
Qed.

(** X15.  A resolved JSON answer whose body is not a JSON object: if
    [JSON.parse] throws, the operation throws the parser's message; if the body
    is [null], the message of the [TypeError]; if it is any other value that is
    not an object, the fallback message.  An empty message is replaced by the
    fallback. *)
Theorem json_answer_without_object (op : Operation EditOperation) (request : Request)
    (response : Response) :
  requests (perform rt op) = [request] ->
  post rt request = Returned response ->
  is_json (response_headers response !! "content-type") = true ->
  let or_fallback (m : string) := if String.eqb m "" then fallback_message op else m in
  (forall syntaxError,
      JSON_parse rt (text (response_data response)) = inr syntaxError ->
      result (perform rt op) = Threw (Error (or_fallback syntaxError)))
  /\ (JSON_parse rt (text (response_data response)) = inl JNull ->
      result (perform rt op) = Threw (Error (or_fallback (null_property_message rt))))
  /\ (forall v,
        JSON_parse rt (text (response_data response)) = inl v ->
        match v with JNull | JObject _ => False | _ => True end ->
        result (perform rt op) = Threw (Error (fallback_message op))).
Proof.
  intros Hreq Hpost Hct or_fallback. subst or_fallback.
  destruct (PdfServiceProofs.perform_requests rt op request Hreq) as [-> Hex].
  unfold result, run. rewrite Hex.
  unfold exchange, try_catch, bind, axiosInstance_post, check_response,
    throw_detail, bind, parse_blob.
  destruct (request_of rt op) as [u d c]. simpl in *.
  rewrite Hpost, Hct.
  split; [|split].
  - intros syntaxError ->. done.
  - intros ->. done.
  - intros v -> Hv. destruct v; try done; simpl; by destruct (String.eqb _ "").
Qed.


(** X17.  Every request [export] issues is for a file whose declared type
    includes [pdf] and carries a [format] field that is the lower-cased format
    and a member of the supported list. *)
Theorem export_sends_supported (file : File) (format : string) (request : Request) :
  In request (requests (export rt file format)) ->
  includes (type file) "pdf" = true
  /\ In (toLowerCase format) supportedFormats
  /\ url request = "/api/v1/pdf/export"
  /\ data request = [("file", FormFile file); ("format", FormString (toLowerCase format))].
Proof.
  unfold requests, run, export.
  destruct (includes (type file) "pdf"); cbn [negb]; [|done].
  destruct (array_includes supportedFormats (toLowerCase format)) eqn:Hfmt; cbn [negb];
    [|done].
  match goal with
  | |- In _ ?l -> _ =>
      assert (l = [request_of rt (Export file format)]) as ->
        by exact (PdfServiceProofs.exchange_log rt _ _ _ _ [])
  end.
  intros [<- | []]. split; [done|]. split; [|done].
  unfold array_includes in Hfmt. apply existsb_exists in Hfmt as (f & Hf & Heq).
  apply String.eqb_eq in Heq. by subst f.
Qed.

(** X18.  [edit] checks nothing and inspects nothing: whatever the type of the
    file it issues exactly one request, with the form fields [preview] sends;
    the payload of a resolved answer is returned as it is, also when its content
    type is JSON; what the HTTP client rejects with is rethrown as it is. *)
Theorem edit_passes_through (file : File) (operations : list EditOperation) :
  requests (edit rt file operations) = [edit_request rt file operations]
  /\ data (edit_request rt file operations) = data (request_of rt (Preview file operations))
  /\ (forall response,
        post rt (edit_request rt file operations) = Returned response ->
        result (edit rt file operations) = Returned (response_data response))
  /\ (forall e,
        post rt (edit_request rt file operations) = Threw e ->
        result (edit rt file operations) = Threw e).
Proof.
  unfold requests, result, run, edit, try_catch, bind, axiosInstance_post, edit_request.
  simpl.
  set (request := {| url := _; data := _; config := _ |}).
  split; [by destruct (post rt request)|]. split; [done|].
  split; [intros response -> | intros e ->]; done.
Qed.

End Operations.

(** Properties of a headers object. *)
Lemma property_assign (obj : list (string * string)) (key value k : string) :
  property (assign obj key value) k
  = if String.eqb key k then Some value else property obj k.
Proof.
  induction obj as [|[k' v'] obj IH]; simpl.
  - done.
  - destruct (String.eqb_spec k' key) as [->|Hne]; simpl.
    + by destruct (String.eqb key k).
    + rewrite IH. destruct (String.eqb_spec k' k) as [->|]; [|done].
      by destruct (String.eqb_spec key k).
Qed.

Lemma property_spread (target source : list (string * string)) (k : string) :
  NoDup (List.map fst source) ->
  property (spread target source) k
  = match property source k with
    | Some v => Some v
    | None => property target k
    end.
Proof.
  unfold spread. revert target.
  induction source as [|[k' v'] source IH]; intros target Hnd; simpl; [done|].
  apply NoDup_cons in Hnd as [Hk' Hnd].
  rewrite IH by done. rewrite property_assign.
  destruct (String.eqb_spec k' k) as [->|Hne]; [|done].
  assert (property source k = None) as ->; [|done].
  clear IH Hnd target. induction source as [|[k2 v2] source IH]; simpl; [done|].
  destruct (String.eqb_spec k2 k) as [->|].
  - exfalso. apply Hk'. simpl. by left.
  - apply IH. intros Hin. apply Hk'. simpl. by right.
Qed.

(** X19.  [createFormRequest] keeps the response type and every header of its
    argument; it adds an [Accept] header only when the argument has none, and
    then [application/pdf] for the response type [blob] and [application/json]
    for any other or none. *)
Theorem createFormRequest_headers (config : RequestOptions) (key : string) :
  NoDup (List.map fst (options_headers config)) ->
  options_responseType (createFormRequest config) = options_responseType config
  /\ property (options_headers (createFormRequest config)) key
     = match property (options_headers config) key with
       | Some value => Some value
       | None =>
           if String.eqb key "Accept" then
             Some (if bool_decide (options_responseType config = Some "blob")
                   then "application/pdf" else "application/json")
           else None
       end.
Proof.
  intros Hnd. split; [done|].
  unfold createFormRequest. cbn [options_headers]. rewrite property_spread by done.
  destruct (property (options_headers config) key); [done|].
  cbn [property]. rewrite (String.eqb_sym "Accept" key).
  destruct (String.eqb key "Accept"); [|done]. f_equal.
  destruct (options_responseType config) as [t|]; [|done].
  destruct (String.eqb_spec t "blob") as [->|Hne].
  - by rewrite bool_decide_eq_true_2.
  - rewrite bool_decide_eq_false_2; [done | congruence].
Qed.

Import Sample MoreSamples.

Lemma rejection_with_response_witness :
  result (perform (answering (bad_request "File must be a PDF")) (Compress report_pdf MEDIUM))
  = Threw (Error "Failed to compress PDF").
Proof.
  apply (rejection_with_response (answering (bad_request "File must be a PDF"))
           (Compress report_pdf MEDIUM)
           (request_of (answering (bad_request "File must be a PDF"))
              (Compress report_pdf MEDIUM))
           "Request failed with status code 400"
           (Backend.json_error 400 "File must be a PDF")); reflexivity.
Defined.

Lemma rejection_without_response_witness :
  result (perform (answering network_down) (Merge [report_pdf; annex_pdf]))
  = Threw (Error "Network Error").
Proof.
  apply (rejection_without_response (answering network_down) (Merge [report_pdf; annex_pdf])
           (request_of (answering network_down) (Merge [report_pdf; annex_pdf]))
           "Network Error"); [reflexivity | by left].
Defined.

Lemma json_answer_without_object_witness :
  result (perform (answering (Returned json_garbage)) (Convert letter_docx))
  = Threw (Error "Unexpected token in JSON").
Proof.
  destruct (json_answer_without_object (answering (Returned json_garbage))
              (Convert letter_docx)
              (request_of (answering (Returned json_garbage)) (Convert letter_docx))
              json_garbage) as [Hsyntax _]; [reflexivity | reflexivity | by vm_compute |].
  apply (Hsyntax "Unexpected token in JSON"). reflexivity.
Defined.


Lemma export_sends_supported_witness :
  In "png" supportedFormats
  /\ data (request_of (answering (Returned ok_pdf)) (Export report_pdf "PNG"))
     = [("file", FormFile report_pdf); ("format", FormString "png")].
Proof.
  destruct (export_sends_supported (answering (Returned ok_pdf)) report_pdf "PNG"
              (request_of (answering (Returned ok_pdf)) (Export report_pdf "PNG")))
    as (_ & Hin & _ & Hdata); [by left|].
  split; [exact Hin | exact Hdata].
Defined.

Lemma edit_passes_through_witness :
  requests (edit (answering (Returned json_200)) notes_txt [])
  = [edit_request (answering (Returned json_200)) notes_txt []]
  /\ result (edit (answering (Returned json_200)) notes_txt [])
     = Returned (response_data json_200)
  /\ result (edit (answering network_down) notes_txt [])
     = Threw (AxiosError "Network Error" None).
Proof.
  destruct (edit_passes_through (answering (Returned json_200)) notes_txt [])
    as (Hreq & _ & Hok & _).
  destruct (edit_passes_through (answering network_down) notes_txt [])
    as (_ & _ & _ & Hfail).
  split; [exact Hreq|]. split; [by apply Hok | by apply Hfail].
Defined.

Lemma createFormRequest_headers_witness :
  property (options_headers (createFormRequest own_accept)) "Accept" = Some "*/*"
  /\ property (options_headers (createFormRequest own_accept)) "X-Trace" = Some "1".
Proof.
  split.
  - apply (proj2 (createFormRequest_headers own_accept "Accept"
                    ltac:(by apply (bool_decide_unpack _)))).
  - apply (proj2 (createFormRequest_headers own_accept "X-Trace"
                    ltac:(by apply (bool_decide_unpack _)))).
Defined.

End ServiceProofs.

(** * Further properties of the session service and of the provider *)

Module SessionProofs.
Import Js AuthService.

Section Session.
Variable br : Browser.

(** X20.  The service touches no key of [localStorage] but its own: a read, a
    login with any credentials and a logout leave every other key as it was. *)
Theorem other_keys_untouched (w : World) (key username password : string) :
  key <> TOKEN_KEY br ->
  localStorage (snd (getSession br w)) !! key = localStorage w !! key
  /\ localStorage (snd (login br username password w)) !! key = localStorage w !! key
  /\ localStorage (snd (logout br w)) !! key = localStorage w !! key.
Proof.
  intros Hkey. split; [|split].
  - rewrite AuthServiceProofs.getSession_eq.
    destruct (localStorage w !! TOKEN_KEY br) as [sessionText|]; [|done].
    destruct (String.eqb sessionText ""); [done|].
    destruct (JSON_parse_session br sessionText) as [parsed|err]; simpl.
    + destruct (_ >? _); simpl; [by rewrite lookup_delete_ne|].
      destruct (setItem_accepts br _ _); simpl;
        [by rewrite lookup_insert_ne | by rewrite lookup_delete_ne].
    + by rewrite lookup_delete_ne.
  - rewrite AuthServiceProofs.login_eq.
    destruct (post_token br username password) as [t|err]; [|done].
    destruct (get_me br t) as [u|err]; simpl; [|by rewrite lookup_delete_ne].
    destruct (setItem_accepts br _ _); simpl; [by rewrite lookup_insert_ne | done].
  - simpl. by rewrite lookup_delete_ne.
Qed.

(** X22.  An entry that cannot be used is destroyed by the read that finds it:
    a text that [JSON.parse] refuses, and also a valid entry that has not expired
    when the storage refuses the refreshing write.  In both cases the read
    returns null. *)
Theorem unusable_entry_removed (w : World) (sessionText : string) :
  localStorage w !! TOKEN_KEY br = Some sessionText ->
  sessionText <> "" ->
  ((exists error, JSON_parse_session br sessionText = inr error)
   \/ (exists entry,
         JSON_parse_session br sessionText = inl entry
         /\ clock br (clock_reads w) <= expiryTime entry
         /\ setItem_accepts br (TOKEN_KEY br)
              (JSON_stringify_session br
                 {| token := token entry;
                    expiryTime := clock br (S (clock_reads w)) + SESSION_DURATION br;
                    user := user entry |}) = false)) ->
  exists w',
    getSession br w = (Returned None, w')
    /\ localStorage w' !! TOKEN_KEY br = None
    /\ Authorization w' = None.
Proof.
  intros Hstored Hne Hbad.
  rewrite AuthServiceProofs.getSession_eq, Hstored.
  destruct (String.eqb_spec sessionText ""); [done|].
  destruct Hbad as [[error ->] | (entry & -> & Hnow & Hacc)].
  - eexists. split; [done|]. simpl. by rewrite lookup_delete_eq.
  - destruct (Z.gtb_spec (clock br (clock_reads w)) (expiryTime entry)); [lia|].
    simpl in *. rewrite Hacc.
    eexists. split; [done|]. simpl. by rewrite lookup_delete_eq.
Qed.

(** A login that succeeds, and the world it leaves. *)
Lemma login_stores (w : World) (username password t : string) (u : User) :
  let entry :=
    {| token := t; expiryTime := clock br (clock_reads w) + SESSION_DURATION br;
       user := u |} in
  post_token br username password = inl t ->
  get_me br t = inl u ->
  setItem_accepts br (TOKEN_KEY br) (JSON_stringify_session br entry) = true ->
  login br username password w
  = (Returned (t, u),
     {| localStorage :=
          <[TOKEN_KEY br := JSON_stringify_session br entry]> (localStorage w);
        Authorization := Some ("Bearer " ++ t);
        clock_reads := S (clock_reads w) |}).
Proof.
  intros entry Hpost Hme Hacc.
  rewrite AuthServiceProofs.login_eq, Hpost, Hme. fold entry. by rewrite Hacc.
Qed.

(** A read of an entry that has not expired, and the world it leaves. *)
Lemma read_refreshes (w : World) (sessionText : string) (entry : SessionData) :
  let refreshed :=
    {| token := token entry;
       expiryTime := clock br (S (clock_reads w)) + SESSION_DURATION br;
       user := user entry |} in
  localStorage w !! TOKEN_KEY br = Some sessionText ->
  sessionText <> "" ->
  JSON_parse_session br sessionText = inl entry ->
  clock br (clock_reads w) <= expiryTime entry ->
  setItem_accepts br (TOKEN_KEY br) (JSON_stringify_session br refreshed) = true ->
  getSession br w
  = (Returned (Some (token entry, user entry)),
     {| localStorage :=
          <[TOKEN_KEY br := JSON_stringify_session br refreshed]> (localStorage w);
        Authorization := Some ("Bearer " ++ token entry);
        clock_reads := S (S (clock_reads w)) |}).
Proof.
  intros refreshed Hstored Hne Hparse Hnow Hacc.
  rewrite AuthServiceProofs.getSession_eq, Hstored, Hparse.
  destruct (String.eqb_spec sessionText ""); [done|].
  destruct (Z.gtb_spec (clock br (clock_reads w)) (expiryTime entry)); [lia|].
  simpl in *. fold refreshed. by rewrite Hacc.
Qed.

(** A login whose token fails validation. *)
Lemma login_validation_fails (w : World) (username password t error : string) :
  post_token br username password = inl t ->
  get_me br t = inr error ->
  exists w',
    login br username password w = (Threw error, w')
    /\ localStorage w' !! TOKEN_KEY br = None
    /\ Authorization w' = None.
Proof.
  intros Hpost Hme. rewrite AuthServiceProofs.login_eq, Hpost, Hme.
  eexists. split; [done|]. simpl. by rewrite lookup_delete_eq.
Qed.

(** X23.  The session written by a login is read back: when the server accepts
    the credentials and the token, the storage accepts the two writes,
    [JSON.parse] reads back what [JSON.stringify] wrote and the next clock
    reading is not past the expiry, the read that follows the login returns the
    token and the user of the login. *)
Theorem login_then_getSession (w : World) (username password t : string) (u : User) :
  let entry :=
    {| token := t; expiryTime := clock br (clock_reads w) + SESSION_DURATION br;
       user := u |} in
  let refreshed :=
    {| token := t;
       expiryTime := clock br (S (S (clock_reads w))) + SESSION_DURATION br;
       user := u |} in
  post_token br username password = inl t ->
  get_me br t = inl u ->
  JSON_stringify_session br entry <> "" ->
  JSON_parse_session br (JSON_stringify_session br entry) = inl entry ->
  setItem_accepts br (TOKEN_KEY br) (JSON_stringify_session br entry) = true ->
  setItem_accepts br (TOKEN_KEY br) (JSON_stringify_session br refreshed) = true ->
  clock br (S (clock_reads w)) <= clock br (clock_reads w) + SESSION_DURATION br ->
  exists w1 w2,
    login br username password w = (Returned (t, u), w1)
    /\ getSession br w1 = (Returned (Some (t, u)), w2)
    /\ localStorage w2 !! TOKEN_KEY br = Some (JSON_stringify_session br refreshed).
Proof.
  intros entry refreshed Hpost Hme Hne Hparse Hacc1 Hacc2 Hclock.
  rewrite (login_stores w username password t u Hpost Hme Hacc1). fold entry.
  eexists _, _. split; [reflexivity|].
  set (w1 := {| localStorage := _; Authorization := _; clock_reads := _ |}).
  assert (localStorage w1 !! TOKEN_KEY br = Some (JSON_stringify_session br entry))
    as Hstored by apply lookup_insert_eq.
  rewrite (read_refreshes w1 _ entry Hstored Hne Hparse Hclock Hacc2).
  split; [done|]. simpl. apply lookup_insert_eq.
Qed.

(** X24.  The two ways a login fails.  When the server refuses the credentials,
    the error is rethrown and nothing changes: a session already stored stays.
    When the server issues a token and then fails to validate it, the error is
    rethrown and the session already stored is removed together with the
    [Authorization] header. *)
Theorem login_failures (w : World) (username password : string) :
  (forall error,
      post_token br username password = inr error ->
      login br username password w = (Threw error, w))
  /\ (forall t error,
        post_token br username password = inl t ->
        get_me br t = inr error ->
        exists w',
          login br username password w = (Threw error, w')
          /\ localStorage w' !! TOKEN_KEY br = None
          /\ Authorization w' = None).
Proof.
  split.
  - intros error Hpost. by rewrite AuthServiceProofs.login_eq, Hpost.
  - intros t error. apply login_validation_fails.
Qed.

(** X25.  [logout] never throws; it removes the entry and the [Authorization]
    header, the read that follows returns null without changing anything, and a
    second logout changes nothing either. *)
Theorem logout_then_getSession (w : World) :
  exists w',
    logout br w = (Returned tt, w')
    /\ localStorage w' !! TOKEN_KEY br = None
    /\ Authorization w' = None
    /\ getSession br w' = (Returned None, w')
    /\ logout br w' = (Returned tt, w').
Proof.
  eexists. split; [reflexivity|]. simpl.
  split; [by rewrite lookup_delete_eq|]. split; [done|]. split.
  - rewrite AuthServiceProofs.getSession_eq. simpl. by rewrite lookup_delete_eq.
  - unfold logout, try_catch, clearSession, bind, localStorage_removeItem,
      set_Authorization. simpl.
    rewrite (delete_id (delete (TOKEN_KEY br) (localStorage w)) (TOKEN_KEY br));
      [done | apply lookup_delete_eq].
Qed.

End Session.

Import AuthSample MoreSamples.

Lemma other_keys_untouched_witness :
  localStorage (snd (getSession laptop with_theme)) !! "theme" = Some "dark"
  /\ localStorage (snd (login laptop "alice" "secret" with_theme)) !! "theme" = Some "dark"
  /\ localStorage (snd (logout laptop with_theme)) !! "theme" = Some "dark".
Proof.
  destruct (other_keys_untouched laptop with_theme "theme" "alice" "secret")
    as (H1 & H2 & H3); [discriminate|].
  assert (localStorage with_theme !! "theme" = Some "dark") as Htheme by (by vm_compute).
  rewrite Htheme in H1, H2, H3. done.
Defined.

Lemma unusable_entry_removed_witness :
  (exists w',
      getSession laptop corrupted = (Returned None, w')
      /\ localStorage w' !! TOKEN_KEY laptop = None
      /\ Authorization w' = None)
  /\ (exists w',
        getSession storage_full logged_in = (Returned None, w')
        /\ localStorage w' !! TOKEN_KEY storage_full = None
        /\ Authorization w' = None).
Proof.
  split.
  - apply (unusable_entry_removed laptop corrupted "not json");
      [reflexivity | discriminate | left; by eexists].
  - apply (unusable_entry_removed storage_full logged_in (stringify login_entry));
      [reflexivity | discriminate |].
    right. exists login_entry. split; [reflexivity|]. split; [|reflexivity].
    vm_compute. discriminate.
Defined.

Lemma login_then_getSession_witness :
  exists w1 w2,
    login laptop "alice" "secret" anonymous = (Returned ("tok-123", alice), w1)
    /\ getSession laptop w1 = (Returned (Some ("tok-123", alice)), w2)
    /\ localStorage w2 !! TOKEN_KEY laptop = Some (stringify refreshed_entry).
Proof.
  apply (login_then_getSession laptop anonymous "alice" "secret" "tok-123" alice);
    try reflexivity.
  - discriminate.
  - vm_compute. discriminate.
Defined.

Lemma login_failures_witness :
  login laptop "alice" "wrong" logged_in
  = (Threw "Request failed with status code 401", logged_in)
  /\ exists w',
      login validation_down "alice" "secret" logged_in
      = (Threw "Request failed with status code 401", w')
      /\ localStorage w' !! TOKEN_KEY validation_down = None
      /\ Authorization w' = None.
Proof.
  split.
  - apply (proj1 (login_failures laptop logged_in "alice" "wrong")). reflexivity.
  - apply (proj2 (login_failures validation_down logged_in "alice" "secret") "tok-999");
      reflexivity.
Defined.

End SessionProofs.

Module ProviderProofs.
Import Js.

Section Provider.
Variable br : AuthService.Browser.

Lemma on_mount_eq (s : AuthContext.State) (w : AuthService.World) :
  AuthContext.on_mount br (s, w)
  = match AuthService.getSession br w with
    | (Returned (Some (_, u)), w') =>
        (Returned tt, ({| AuthContext.user := Some u; AuthContext.isLoading := false |}, w'))
    | (Returned None, w') =>
        (Returned tt,
         ({| AuthContext.user := AuthContext.user s; AuthContext.isLoading := false |}, w'))
    | (Threw e, w') => (Threw e, (s, w'))
    end.
Proof.
  unfold AuthContext.on_mount, bind, AuthContext.call. simpl.
  destruct (AuthService.getSession br w) as [[[[t u]|]|e] w']; done.
Qed.

(** X26.  After the [logout] of the provider nobody is signed in: the provider
    has no user, the entry and the [Authorization] header are gone, and a
    provider that mounts afterwards finds no user. *)
Theorem provider_logout (s : AuthContext.State) (w : AuthService.World) :
  exists s' w',
    AuthContext.logout br (s, w) = (Returned tt, (s', w'))
    /\ AuthContext.isAuthenticated s' = false
    /\ AuthService.localStorage w' !! AuthService.TOKEN_KEY br = None
    /\ AuthService.Authorization w' = None
    /\ AuthContext.on_mount br (AuthContext.initial, w')
       = (Returned tt,
          ({| AuthContext.user := None; AuthContext.isLoading := false |}, w')).
Proof.
  eexists _, _. split; [reflexivity|]. simpl.
  split; [done|]. split; [by rewrite lookup_delete_eq|]. split; [done|].
  rewrite on_mount_eq, AuthServiceProofs.getSession_eq. simpl.
  by rewrite lookup_delete_eq.
Qed.

(** X27.  A login survives a reload: under the conditions of the round trip of
    the session service, the [login] of the provider installs the user that the
    server returned, and a provider that mounts afterwards, from its initial
    state, finds the same user. *)
Theorem login_survives_reload (s : AuthContext.State) (w : AuthService.World)
    (email password t : string) (u : AuthService.User) :
  let entry :=
    {| AuthService.token := t;
       AuthService.expiryTime :=
         AuthService.clock br (AuthService.clock_reads w) + AuthService.SESSION_DURATION br;
       AuthService.user := u |} in
  let refreshed :=
    {| AuthService.token := t;
       AuthService.expiryTime :=
         AuthService.clock br (S (S (AuthService.clock_reads w)))
         + AuthService.SESSION_DURATION br;
       AuthService.user := u |} in
  AuthService.post_token br email password = inl t ->
  AuthService.get_me br t = inl u ->
  AuthService.JSON_stringify_session br entry <> "" ->
  AuthService.JSON_parse_session br (AuthService.JSON_stringify_session br entry)
  = inl entry ->
  AuthService.setItem_accepts br (AuthService.TOKEN_KEY br)
    (AuthService.JSON_stringify_session br entry) = true ->
  AuthService.setItem_accepts br (AuthService.TOKEN_KEY br)
    (AuthService.JSON_stringify_session br refreshed) = true ->
  AuthService.clock br (S (AuthService.clock_reads w))
  <= AuthService.clock br (AuthService.clock_reads w) + AuthService.SESSION_DURATION br ->
  exists s1 w1 s2 w2,
    AuthContext.login br email password (s, w) = (Returned tt, (s1, w1))
    /\ AuthContext.user s1 = Some u
    /\ AuthContext.on_mount br (AuthContext.initial, w1) = (Returned tt, (s2, w2))
    /\ AuthContext.user s2 = Some u
    /\ AuthContext.isLoading s2 = false.
Proof.
  intros entry refreshed Hpost Hme Hne Hparse Hacc1 Hacc2 Hclock.
  pose proof (SessionProofs.login_stores br w email password t u Hpost Hme Hacc1) as Hlogin.
  fold entry in Hlogin.
  eexists _, _, _, _. split.
  - unfold AuthContext.login, try_catch, bind, AuthContext.call. simpl.
    rewrite Hlogin. reflexivity.
  - split; [done|].
    rewrite on_mount_eq.
    rewrite (SessionProofs.read_refreshes br _
               (AuthService.JSON_stringify_session br entry) entry); simpl; try done.
    by rewrite lookup_insert_eq.
Qed.

(** X28.  A login whose token the server fails to validate leaves the provider
    out of step with the session: the error is rethrown, the provider keeps the
    user it had, and the stored session and the [Authorization] header are gone,
    so that a provider that mounts afterwards finds no user. *)
Theorem failed_validation_keeps_user (s : AuthContext.State) (w : AuthService.World)
    (email password t error : string) :
  AuthService.post_token br email password = inl t ->
  AuthService.get_me br t = inr error ->
  exists w',
    AuthContext.login br email password (s, w) = (Threw error, (s, w'))
    /\ AuthService.localStorage w' !! AuthService.TOKEN_KEY br = None
    /\ AuthService.Authorization w' = None
    /\ AuthContext.on_mount br (AuthContext.initial, w')
       = (Returned tt,
          ({| AuthContext.user := None; AuthContext.isLoading := false |}, w')).
Proof.
  intros Hpost Hme.
  destruct (SessionProofs.login_validation_fails br w email password t error Hpost Hme)
    as (w' & Hlogin & Hentry & Hauth).
  exists w'. split.
  - unfold AuthContext.login, try_catch, bind, AuthContext.call. simpl.
    rewrite Hlogin. by destruct s.
  - split; [done|]. split; [done|].
    rewrite on_mount_eq, AuthServiceProofs.getSession_eq. by rewrite Hentry.
Qed.

End Provider.

Import AuthSample MoreSamples.

Lemma login_survives_reload_witness :
  exists s1 w1 s2 w2,
    AuthContext.login laptop "alice" "secret" (AuthContext.initial, anonymous)
    = (Returned tt, (s1, w1))
    /\ AuthContext.user s1 = Some alice
    /\ AuthContext.on_mount laptop (AuthContext.initial, w1) = (Returned tt, (s2, w2))
    /\ AuthContext.user s2 = Some alice
    /\ AuthContext.isLoading s2 = false.
Proof.
  apply (login_survives_reload laptop AuthContext.initial anonymous
           "alice" "secret" "tok-123" alice); try reflexivity.
  - discriminate.
  - vm_compute. discriminate.
Defined.

Lemma failed_validation_keeps_user_witness :
  exists w',
    AuthContext.login validation_down "alice" "secret" (alice_signed_in, logged_in)
    = (Threw "Request failed with status code 401", (alice_signed_in, w'))
    /\ AuthService.localStorage w' !! AuthService.TOKEN_KEY validation_down = None
    /\ AuthService.Authorization w' = None
    /\ AuthContext.on_mount validation_down (AuthContext.initial, w')
       = (Returned tt,
          ({| AuthContext.user := None; AuthContext.isLoading := false |}, w')).
Proof.
  apply (failed_validation_keeps_user validation_down alice_signed_in logged_in
           "alice" "secret" "tok-999" "Request failed with status code 401");
    reflexivity.
Defined.

End ProviderProofs.
